(** * Streaming assistant endpoint: [src/api/src/functions/assistant.js]

    A shallow embedding of the three async generators of the endpoint
    ([processQuery], [handleRequiresAction], [submitToolOutputs]) and of
    [getStockPrice], over a small model of the JavaScript values they
    inspect.  An async generator is modelled by the ordered trace of the
    effects it performs when it is drained (fragments yielded, log lines,
    calls to the assistant client) together with the way it ends
    (normal return or an exception raised to the consumer). *)

From Stdlib Require Import List String Ascii ZArith Bool Lia.
From Stdlib Require Import Floats.SpecFloat.
Import ListNotations.
Local Open Scope string_scope.
Local Open Scope list_scope.

(** ** JavaScript values *)

Module JS.

(** A JavaScript number is an IEEE-754 binary64 value. *)
Definition number : Type := spec_float.
Definition prec : Z := 53.
Definition emax : Z := 1024.

Definition number_of_Z (z : Z) : number := binary_normalize prec emax z 0 false.
Definition number_mul (x y : number) : number := SFmul prec emax x y.

(** Plain data values: what the assistant client hands to the program
    (decoded server events) and what [JSON.parse] returns.  An object is
    the list of its own properties in insertion order. *)
#[warnings="-register-all"]
Inductive value : Type :=
| VUndefined
| VNull
| VBool (b : bool)
| VNumber (n : number)
| VString (s : string)
| VArray (elems : list value)
| VObject (props : list (string * value)).

(** Exceptions the program can meet. [HostError] is a rejection coming
    from the assistant client (network or API failure). *)
Inductive error : Type :=
| TypeError
| SyntaxError
| HostError (reason : value).

Inductive result (A : Type) : Type :=
| Ok (a : A)
| Throw (e : error).
Arguments Ok {A} a.
Arguments Throw {A} e.

(** [if (v)], [v || w]: ToBoolean. *)
Definition truthy (v : value) : bool :=
  match v with
  | VUndefined | VNull => false
  | VBool b => b
  | VNumber n =>
      match n with
      | S754_zero _ | S754_nan => false
      | _ => true
      end
  | VString s => negb (String.eqb s EmptyString)
  | VArray _ | VObject _ => true
  end.

Definition nullish (v : value) : bool :=
  match v with
  | VUndefined | VNull => true
  | _ => false
  end.

(** [v === "s"] against a string literal. *)
Definition is_string (v : value) (s : string) : bool :=
  match v with
  | VString s' => String.eqb s' s
  | _ => false
  end.

Fixpoint lookup (k : string) (props : list (string * value)) : value :=
  match props with
  | [] => VUndefined
  | (k', v) :: rest => if String.eqb k' k then v else lookup k rest
  end.

(** Decimal spelling of an array index, as used for property keys. *)
Definition digit_char (d : nat) : ascii := ascii_of_nat (48 + d).

Fixpoint index_digits (fuel n : nat) (acc : string) : string :=
  match fuel with
  | O => acc
  | S fuel' =>
      let acc' := String (digit_char (n mod 10)) acc in
      if Nat.ltb n 10 then acc' else index_digits fuel' (n / 10) acc'
  end.

Definition index_key (i : nat) : string := index_digits (S i) i EmptyString.

(** [v.k] for a named property [k].  Reading a property of [undefined] or
    [null] raises a TypeError; primitives and arrays have none of the
    names the program reads except [length]. *)
Definition get (v : value) (k : string) : result value :=
  match v with
  | VUndefined | VNull => Throw TypeError
  | VObject props => Ok (lookup k props)
  | VArray elems =>
      if String.eqb k "length"
      then Ok (VNumber (number_of_Z (Z.of_nat (List.length elems))))
      else Ok VUndefined
  | VString s =>
      if String.eqb k "length"
      then Ok (VNumber (number_of_Z (Z.of_nat (String.length s))))
      else Ok VUndefined
  | VBool _ | VNumber _ => Ok VUndefined
  end.

(** [v[i]] for a literal index [i]. *)
Definition get_index (v : value) (i : nat) : result value :=
  match v with
  | VUndefined | VNull => Throw TypeError
  | VArray elems => Ok (nth i elems VUndefined)
  | VString s =>
      match String.get i s with
      | Some c => Ok (VString (String c EmptyString))
      | None => Ok VUndefined
      end
  | VObject props => Ok (lookup (index_key i) props)
  | VBool _ | VNumber _ => Ok VUndefined
  end.

(** [v?.k]. *)
Definition get_opt (v : value) (k : string) : value :=
  if nullish v then VUndefined
  else match get v k with
       | Ok x => x
       | Throw _ => VUndefined
       end.

(** [v || w]. *)
Definition or_else (v w : value) : value := if truthy v then v else w.

(** A server event stream as the program sees it when it iterates it with
    [for await]: finitely many chunks, then either the end of the stream or
    a rejection. *)
Inductive stream : Type :=
| SEnd
| SFail (e : error)
| SChunk (chunk : value) (rest : stream).

Fixpoint stream_app (chunks : list value) (s : stream) : stream :=
  match chunks with
  | [] => s
  | c :: rest => SChunk c (stream_app rest s)
  end.

Definition stream_of_list (chunks : list value) : stream := stream_app chunks SEnd.

End JS.
Import JS.

(** ** Effects of a drained generator *)

(** Requests sent to the assistant client. *)
Inductive request : Type :=
| AssistantsRetrieve (id : value)
| AssistantsCreate (body : value)
| ThreadsCreate
| MessagesCreate (threadId body : value)
| RunsStream (threadId body : value)
| SubmitToolOutputsStream (threadId runId body : value).

Inductive effect : Type :=
| Yield (fragment : value)
| Log (msg : string) (ctx : option value)
| LogError (msg : string) (err : error)
| Call (req : request).

Definition trace : Type := list effect.

Definition yielded_of (e : effect) : list value :=
  match e with
  | Yield v => [v]
  | _ => []
  end.

(** The fragments the consumer receives, in order. *)
Definition yields (t : trace) : list value := flat_map yielded_of t.

Definition calls_of (e : effect) : list request :=
  match e with
  | Call r => [r]
  | _ => []
  end.

Definition calls (t : trace) : list request := flat_map calls_of t.

Definition errors_of (e : effect) : list (string * error) :=
  match e with
  | LogError m err => [(m, err)]
  | _ => []
  end.

(** What was written with [context.error]. *)
Definition logged_errors (t : trace) : list (string * error) := flat_map errors_of t.

(** ** The generator monad: host state, effect trace, exceptions *)

Section Monad.
Variable world : Type.

Definition M (A : Type) : Type := world -> trace * result A * world.

Definition ret {A} (a : A) : M A := fun w => ([], Ok a, w).

Definition bind {A B} (m : M A) (f : A -> M B) : M B :=
  fun w =>
    let '(t1, r, w1) := m w in
    match r with
    | Ok a => let '(t2, r2, w2) := f a w1 in (t1 ++ t2, r2, w2)
    | Throw e => (t1, Throw e, w1)
    end.

Definition lift {A} (r : result A) : M A := fun w => ([], r, w).

Definition emit (e : effect) : M unit := fun w => ([e], Ok tt, w).

(** [try { m } catch (error) { h error }] *)
Definition try_catch {A} (m : M A) (h : error -> M A) : M A :=
  fun w =>
    let '(t1, r, w1) := m w in
    match r with
    | Ok a => (t1, Ok a, w1)
    | Throw e => let '(t2, r2, w2) := h e w1 in (t1 ++ t2, r2, w2)
    end.

(** Calling an async function: its body runs up to completion and the
    caller gets a settled promise instead of an exception. *)
Definition settle {A} (m : M A) : M (result A) :=
  fun w => let '(t, r, w1) := m w in (t, Ok r, w1).

End Monad.

Arguments ret {world A} a.
Arguments bind {world A B} m f.
Arguments lift {world A} r.
Arguments emit {world} e.
Arguments try_catch {world A} m h.
Arguments settle {world A} m.

Declare Scope gen_scope.
Delimit Scope gen_scope with gen.
Notation "x <- m ;; k" := (bind m (fun x => k))
  (at level 100, m at next level, right associativity) : gen_scope.
Notation "m ;; k" := (bind m (fun _ => k))
  (at level 100, right associativity) : gen_scope.
Local Open Scope gen_scope.

(** ** The host

    Everything outside the file that the program talks to: the built-ins
    of the language, the process environment and the assistant client. *)

(** The assistant client ([openai.beta...]).  A method that returns a
    promise gives a settled result; the two streaming helpers give the
    stream they will deliver. *)
Record OpenAI (world : Type) : Type := {
  assistants_retrieve : value -> world -> result value * world;
  assistants_create : value -> world -> result value * world;
  threads_create : world -> result value * world;
  threads_messages_create : value -> value -> world -> result value * world;
  threads_runs_stream : value -> value -> world -> stream * world;
  threads_runs_submitToolOutputsStream :
    value -> value -> value -> world -> stream * world
}.
Arguments assistants_retrieve {world} _ _ _.
Arguments assistants_create {world} _ _ _.
Arguments threads_create {world} _ _.
Arguments threads_messages_create {world} _ _ _ _.
Arguments threads_runs_stream {world} _ _ _ _.
Arguments threads_runs_submitToolOutputsStream {world} _ _ _ _ _.

Class Host : Type := {
  (** State of the outside world (random generator, server). *)
  world : Type;
  (** [Math.random()]; the built-in ignores its arguments. *)
  Math_random : world -> number * world;
  (** Number-to-string conversion, as performed by [string + number]. *)
  Number_toString : number -> string;
  (** [JSON.parse] on a string; SyntaxError on a malformed text. *)
  JSON_parse : string -> result value;
  (** [process.env]: a variable is a string or is not set. *)
  ASSISTANT_ID : option string;
  AZURE_DEPLOYMENT_NAME : option string;
  (** The client built by [new AzureOpenAI({ azureADTokenProvider })]. *)
  AzureOpenAI : OpenAI world
}.

(** ** The program *)

Section Program.
Context {host : Host}.

Local Abbreviation M := (M world).
Local Abbreviation OpenAI := (OpenAI world).

Definition env_value (x : option string) : value :=
  match x with
  | Some s => VString s
  | None => VUndefined
  end.

(** [await openai.method(args)] and the streaming helpers: the request
    is recorded, the host answers. *)
Definition request_value (req : request)
    (answer : world -> result value * world) : M value :=
  fun w => let '(r, w1) := answer w in ([Call req], r, w1).

Definition request_stream (req : request)
    (answer : world -> stream * world) : M stream :=
  fun w => let '(s, w1) := answer w in ([Call req], Ok s, w1).

Definition context_log (msg : string) : M unit := emit (Log msg None).
Definition context_log_with (msg : string) (ctx : value) : M unit :=
  emit (Log msg (Some ctx)).
Definition context_error (msg : string) (err : error) : M unit :=
  emit (LogError msg err).
Definition yield (v : value) : M unit := emit (Yield v).

(** [for await (const chunk of s) body] *)
Fixpoint for_await (s : stream) (body : value -> M unit) : M unit :=
  match s with
  | SEnd => ret tt
  | SFail e => lift (Throw e)
  | SChunk chunk rest => body chunk ;; for_await rest body
  end.

(** ToString on a plain value, needed where a built-in coerces its
    argument to a string. *)
Fixpoint to_string (v : value) : string :=
  match v with
  | VUndefined => "undefined"
  | VNull => "null"
  | VBool true => "true"
  | VBool false => "false"
  | VNumber n => Number_toString n
  | VString s => s
  | VArray elems =>
      (fix join (l : list value) : string :=
         match l with
         | [] => EmptyString
         | [x] => if nullish x then EmptyString else to_string x
         | x :: rest =>
             ((if nullish x then EmptyString else to_string x) ++ "," ++ join rest)%string
         end) elems
  | VObject _ => "[object Object]"
  end.

(** [Promise.all]: the array of results, or the first rejection. *)
Fixpoint Promise_all (ps : list (result value)) : result (list value) :=
  match ps with
  | [] => Ok []
  | Throw e :: _ => Throw e
  | Ok v :: rest =>
      match Promise_all rest with
      | Ok vs => Ok (v :: vs)
      | Throw e => Throw e
      end
  end.

(** [xs.map(async (x) => cb x)]: every callback is started, in order. *)
Fixpoint map_async (cb : value -> M value) (xs : list value)
    : M (list (result value)) :=
  match xs with
  | [] => ret []
  | x :: rest =>
      p <- settle (cb x) ;;
      ps <- map_async cb rest ;;
      ret (p :: ps)
  end.

(** [v.map(async ...)] on a plain value: only arrays have [map]. *)
Definition array_map_async (v : value) (cb : value -> M value)
    : M (list (result value)) :=
  match v with
  | VArray xs => map_async cb xs
  | _ => lift (Throw TypeError)
  end.

Definition initAzureOpenAI : M OpenAI :=
  context_log "Using Azure OpenAI (w/ Microsoft Entra ID) ..." ;;
  ret AzureOpenAI.

Definition assistantDefinition : value :=
  VObject
    [ ("name", VString "Finance Assistant");
      ("instructions",
        VString "You are a personal finance assistant. Retrieve the latest closing price of a stock using its ticker symbol.");
      ("tools",
        VArray
          [ VObject
              [ ("type", VString "function");
                ("function",
                  VObject
                    [ ("name", VString "getStockPrice");
                      ("description",
                        VString "Retrieve the latest closing price of a stock using its ticker symbol.");
                      ("parameters",
                        VObject
                          [ ("type", VString "object");
                            ("properties",
                              VObject
                                [ ("symbol",
                                    VObject
                                      [ ("type", VString "string");
                                        ("description",
                                          VString "The ticker symbol of the stock") ]) ]);
                            ("required", VArray [VString "symbol"]) ]) ]) ] ]);
      ("model", env_value AZURE_DEPLOYMENT_NAME) ].

Definition getStockPrice (symbol : value) : M value :=
  fun w =>
    let '(r, w1) := Math_random w in
    ([], Ok (VString (EmptyString ++ Number_toString (number_mul r (number_of_Z 1000)))%string),
     w1).

(** [delta.content[0]?.text?.value || (empty string)] *)
Definition delta_text (delta : value) : result value :=
  match get delta "content" with
  | Throw e => Throw e
  | Ok content =>
      match get_index content 0 with
      | Throw e => Throw e
      | Ok block =>
          Ok (or_else (get_opt (get_opt block "text") "value") (VString EmptyString))
      end
  end.

(** Body of the [for await] loop of [submitToolOutputs]. *)
Definition onToolOutputChunk (chunk : value) : M unit :=
  event <- lift (get chunk "event") ;;
  if is_string event "thread.message.delta" then
    data <- lift (get chunk "data") ;;
    delta <- lift (get data "delta") ;;
    if truthy delta then
      value <- lift (delta_text delta) ;;
      yield value ;;
      context_log_with "Processed thread.message.delta (tool output)"
        (VObject [("value", value)])
    else ret tt
  else ret tt.

Definition submitToolOutputs (openai : OpenAI)
    (toolOutputs : list value) (runId threadId : value) : M unit :=
  try_catch
    (context_log "Call Tool output and stream the response" ;;
     let body := VObject [("tool_outputs", VArray toolOutputs)] in
     asyncStream <-
       request_stream (SubmitToolOutputsStream threadId runId body)
         (threads_runs_submitToolOutputsStream openai threadId runId body) ;;
     for_await asyncStream onToolOutputChunk)
    (fun error => context_error "Error submitting tool outputs:" error).

(** The callback given to [tool_calls.map]. *)
Definition toolOutput (toolCall : value) : M value :=
  fn <- lift (get toolCall "function") ;;
  name <- lift (get fn "name") ;;
  if is_string name "getStockPrice" then
    id <- lift (get toolCall "id") ;;
    fn' <- lift (get toolCall "function") ;;
    arguments <- lift (get fn' "arguments") ;;
    parsed <- lift (JSON_parse (to_string arguments)) ;;
    symbol <- lift (get parsed "symbol") ;;
    output <- getStockPrice symbol ;;
    ret (VObject [("tool_call_id", id); ("output", output)])
  else ret toolCall.

(** [await Promise.all(run.required_action.submit_tool_outputs
    .tool_calls.map(async (toolCall) => ...))] *)
Definition awaitToolOutputs (run : value) : M (list value) :=
  required_action <- lift (get run "required_action") ;;
  submit_tool_outputs <- lift (get required_action "submit_tool_outputs") ;;
  tool_calls <- lift (get submit_tool_outputs "tool_calls") ;;
  promises <- array_map_async tool_calls toolOutput ;;
  lift (Promise_all promises).

Definition handleRequiresAction (openai : OpenAI)
    (run runId threadId : value) : M unit :=
  context_log "Handle Function Calling" ;;
  try_catch
    (toolOutputs <- awaitToolOutputs run ;;
     submitToolOutputs openai toolOutputs runId threadId)
    (fun error => context_error "Error processing required action:" error).

(** Body of the [for await] loop of [processQuery]. *)
Definition onChunk (openai : OpenAI) (chunk : value) : M unit :=
  event <- lift (get chunk "event") ;;
  data <- lift (get chunk "data") ;;
  if is_string event "thread.message.delta" then
    delta <- lift (get data "delta") ;;
    if truthy delta then
      value <- lift (delta_text delta) ;;
      yield value ;;
      context_log_with "Processed thread.message.delta"
        (VObject [("value", value)])
    else ret tt
  else if is_string event "thread.run.requires_action" then
    runId <- lift (get data "id") ;;
    threadId <- lift (get data "thread_id") ;;
    handleRequiresAction openai data runId threadId
  else ret tt.

(** Steps 0 to 4 of [processQuery]: everything before the stream is read. *)
Definition openRun (userQuery : string) : M (OpenAI * stream) :=
  context_log "Step 0: Connect and acquire an OpenAI instance" ;;
  openai <- initAzureOpenAI ;;
  context_log "Step 1: Retrieve or Create an Assistant" ;;
  assistant <-
    (if truthy (env_value ASSISTANT_ID)
     then request_value (AssistantsRetrieve (env_value ASSISTANT_ID))
            (assistants_retrieve openai (env_value ASSISTANT_ID))
     else request_value (AssistantsCreate assistantDefinition)
            (assistants_create openai assistantDefinition)) ;;
  context_log "Step 2: Create a Thread" ;;
  thread <- request_value ThreadsCreate (threads_create openai) ;;
  context_log "Step 3: Add a Message to the Thread" ;;
  threadId <- lift (get thread "id") ;;
  let msg := VObject [("role", VString "user"); ("content", VString userQuery)] in
  message <-
    request_value (MessagesCreate threadId msg)
      (threads_messages_create openai threadId msg) ;;
  context_log "Step 4: Create a Run (and stream the response)" ;;
  threadId' <- lift (get thread "id") ;;
  assistantId <- lift (get assistant "id") ;;
  let opts := VObject [("assistant_id", assistantId); ("stream", VBool true)] in
  run <-
    request_stream (RunsStream threadId' opts)
      (threads_runs_stream openai threadId' opts) ;;
  ret (openai, run).

Definition processQuery (userQuery : string) : M unit :=
  opened <- openRun userQuery ;;
  let '(openai, run) := opened in
  (* the [{ run }] logged here is the stream handle, not a data value *)
  context_log "Step 5: Read streamed response" ;;
  for_await run (onChunk openai) ;;
  context_log "Done!".

End Program.

(** ** A reference host

    Executable versions of the built-ins the program calls, following
    ECMA-262 ([Number::toString], [JSON.parse]).  The theorems below hold
    for every host; this one is used to run the program on examples.
    Strings are byte strings (UTF-8). *)

Module Number.

Local Open Scope Z_scope.

(** The binary64 value nearest to [m * 10^e10] (ties to even). *)
Definition of_decimal (neg : bool) (m : Z) (e10 : Z) : number :=
  match m with
  | Zpos p =>
      if 0 <=? e10
      then binary_round prec emax neg (Z.to_pos (Zpos p * 10 ^ e10)) 0
      else SFdiv prec emax (S754_finite neg p 0)
             (S754_finite false (Z.to_pos (10 ^ (- e10))) 0)
  | _ => S754_zero neg
  end.

Definition canonical (x : number) : number :=
  match x with
  | S754_finite s m e => binary_round prec emax s m e
  | _ => x
  end.

Definition eqb (x y : number) : bool :=
  match x, y with
  | S754_zero s1, S754_zero s2 => Bool.eqb s1 s2
  | S754_infinity s1, S754_infinity s2 => Bool.eqb s1 s2
  | S754_finite s1 m1 e1, S754_finite s2 m2 e2 =>
      Bool.eqb s1 s2 && Pos.eqb m1 m2 && Z.eqb e1 e2
  | _, _ => false
  end.

(** [x * 10^j] as a fraction, for [x = num / den]. *)
Definition scale (num den j : Z) : Z * Z :=
  if 0 <=? j then (num * 10 ^ j, den) else (num, den * 10 ^ (- j)).

Definition scale_floor (num den j : Z) : Z :=
  let '(a, b) := scale num den j in a / b.

(** The least [n >= from] with [x < 10^n]. *)
Fixpoint magnitude (fuel : nat) (num den from : Z) : Z :=
  match fuel with
  | O => from
  | S fuel' =>
      if scale_floor num den (- from) =? 0 then from
      else magnitude fuel' num den (from + 1)
  end.

(** Shortest digit string: the least [k] and an [s] of [k] digits such
    that [s * 10^(n-k)] reads back as [x]; the nearer of the two
    neighbours of [x], the even one on a tie.  Returns [(s, k, n)]. *)
Fixpoint shortest (fuel : nat) (x : number) (num den n k : Z) : Z * Z * Z :=
  let '(a, b) := scale num den (k - n) in
  let lo := a / b in
  let hi := lo + 1 in
  let pick (s : Z) := if s =? 10 ^ k then (10 ^ (k - 1), k, n + 1) else (s, k, n) in
  let ok_lo := eqb (of_decimal false lo (n - k)) x in
  let ok_hi := eqb (of_decimal false hi (n - k)) x in
  match fuel with
  | O => pick lo
  | S fuel' =>
      match ok_lo, ok_hi with
      | true, true =>
          match 2 * a ?= (2 * lo + 1) * b with
          | Lt => pick lo
          | Gt => pick hi
          | Eq => if Z.even lo then pick lo else pick hi
          end
      | true, false => pick lo
      | false, true => pick hi
      | false, false => shortest fuel' x num den n (k + 1)
      end
  end.

Fixpoint digits_of (fuel : nat) (z : Z) (acc : string) : string :=
  match fuel with
  | O => acc
  | S fuel' =>
      let acc' := String (digit_char (Z.to_nat (z mod 10))) acc in
      if z <? 10 then acc' else digits_of fuel' (z / 10) acc'
  end.

Definition decimal (z : Z) : string := digits_of (S (Z.to_nat (Z.log2 z))) z EmptyString.

Fixpoint zeros (n : nat) : string :=
  match n with
  | O => EmptyString
  | S n' => String "0" (zeros n')
  end.

Definition layout (ds : string) (k n : Z) : string :=
  if (k <=? n) && (n <=? 21) then (ds ++ zeros (Z.to_nat (n - k)))%string
  else if (0 <? n) && (n <=? 21)
  then (substring 0 (Z.to_nat n) ds ++ "."
          ++ substring (Z.to_nat n) (Z.to_nat (k - n)) ds)%string
  else if (-6 <? n) && (n <=? 0)
  then ("0." ++ zeros (Z.to_nat (- n)) ++ ds)%string
  else
    let e := n - 1 in
    let sign := if e <? 0 then "-" else "+" in
    if k =? 1 then (ds ++ "e" ++ sign ++ decimal (Z.abs e))%string
    else (substring 0 1 ds ++ "." ++ substring 1 (Z.to_nat (k - 1)) ds
            ++ "e" ++ sign ++ decimal (Z.abs e))%string.

Definition toString (x : number) : string :=
  match canonical x with
  | S754_nan => "NaN"
  | S754_zero _ => "0"
  | S754_infinity s => if s then "-Infinity" else "Infinity"
  | S754_finite s m e =>
      let num := if 0 <=? e then Zpos m * 2 ^ e else Zpos m in
      let den := if 0 <=? e then 1 else 2 ^ (- e) in
      let n := magnitude 700 num den (-330) in
      let '(d, k, n') := shortest 20 (S754_finite false m e) num den n 1 in
      ((if s then "-" else EmptyString) ++ layout (decimal d) k n')%string
  end.

End Number.

Module JSON.

Local Open Scope char_scope.

Definition dquote : ascii := "034".
Definition backslash : ascii := "092".

Definition is_ws (c : ascii) : bool :=
  Ascii.eqb c " " || Ascii.eqb c "009" || Ascii.eqb c "010" || Ascii.eqb c "013".

Fixpoint skip_ws (s : list ascii) : list ascii :=
  match s with
  | c :: rest => if is_ws c then skip_ws rest else s
  | [] => []
  end.

Definition digit_val (c : ascii) : option Z :=
  let n := nat_of_ascii c in
  if Nat.leb 48 n && Nat.leb n 57 then Some (Z.of_nat (n - 48)) else None.

Definition hex_val (c : ascii) : option Z :=
  let n := nat_of_ascii c in
  if Nat.leb 48 n && Nat.leb n 57 then Some (Z.of_nat (n - 48))
  else if Nat.leb 65 n && Nat.leb n 70 then Some (Z.of_nat (n - 55))
  else if Nat.leb 97 n && Nat.leb n 102 then Some (Z.of_nat (n - 87))
  else None.

Definition hex4 (a b c d : ascii) : option Z :=
  match hex_val a, hex_val b, hex_val c, hex_val d with
  | Some x, Some y, Some z, Some w => Some (((x * 16 + y) * 16 + z) * 16 + w)%Z
  | _, _, _, _ => None
  end.

Definition byte (z : Z) : ascii := ascii_of_nat (Z.to_nat z).

(** UTF-8 bytes of a code point, last byte first. *)
Definition utf8_rev (cp : Z) : list ascii :=
  (if cp <? 128 then [byte cp]
   else if cp <? 2048 then [byte (128 + cp mod 64); byte (192 + cp / 64)]
   else if cp <? 65536
   then [byte (128 + cp mod 64); byte (128 + (cp / 64) mod 64); byte (224 + cp / 4096)]
   else [byte (128 + cp mod 64); byte (128 + (cp / 64) mod 64);
         byte (128 + (cp / 4096) mod 64); byte (240 + cp / 262144)])%Z.

Definition is_high (u : Z) : bool := ((55296 <=? u) && (u <? 56320))%Z.
Definition is_low (u : Z) : bool := ((56320 <=? u) && (u <? 57344))%Z.

(** Characters of a string literal after its opening quote; [acc] holds
    the decoded bytes in reverse. *)
Fixpoint parse_chars (s : list ascii) (acc : list ascii)
    : option (string * list ascii) :=
  match s with
  | [] => None
  | c :: rest =>
      if Ascii.eqb c dquote
      then Some (string_of_list_ascii (rev acc), rest)
      else if Ascii.eqb c backslash then
        match rest with
        | [] => None
        | e :: rest1 =>
            if Ascii.eqb e dquote then parse_chars rest1 (dquote :: acc)
            else if Ascii.eqb e backslash then parse_chars rest1 (backslash :: acc)
            else if Ascii.eqb e "/" then parse_chars rest1 ("/" :: acc)
            else if Ascii.eqb e "b" then parse_chars rest1 ("008" :: acc)
            else if Ascii.eqb e "f" then parse_chars rest1 ("012" :: acc)
            else if Ascii.eqb e "n" then parse_chars rest1 ("010" :: acc)
            else if Ascii.eqb e "r" then parse_chars rest1 ("013" :: acc)
            else if Ascii.eqb e "t" then parse_chars rest1 ("009" :: acc)
            else if Ascii.eqb e "u" then
              match rest1 with
              | h1 :: h2 :: h3 :: h4 :: rest2 =>
                  match hex4 h1 h2 h3 h4 with
                  | None => None
                  | Some u =>
                      match rest2 with
                      | b :: v :: l1 :: l2 :: l3 :: l4 :: rest3 =>
                          match hex4 l1 l2 l3 l4 with
                          | Some lo =>
                              if Ascii.eqb b backslash && Ascii.eqb v "u"
                                 && is_high u && is_low lo
                              then parse_chars rest3
                                     (utf8_rev (65536 + (u - 55296) * 1024 + (lo - 56320))
                                        ++ acc)
                              else parse_chars rest2 (utf8_rev u ++ acc)
                          | None => parse_chars rest2 (utf8_rev u ++ acc)
                          end
                      | _ => parse_chars rest2 (utf8_rev u ++ acc)
                      end
                  end
              | _ => None
              end
            else None
        end
      else if Nat.ltb (nat_of_ascii c) 32 then None
      else parse_chars rest (c :: acc)
  end.

(** A run of decimal digits: their value, how many, and the rest. *)
Fixpoint parse_digits (s : list ascii) (acc : Z) (len : Z) : Z * Z * list ascii :=
  match s with
  | c :: rest =>
      match digit_val c with
      | Some d => parse_digits rest (acc * 10 + d)%Z (len + 1)%Z
      | None => (acc, len, s)
      end
  | [] => (acc, len, [])
  end.

Definition parse_int (s : list ascii) : option (Z * list ascii) :=
  match s with
  | c :: rest =>
      if Ascii.eqb c "0" then Some (0%Z, rest)
      else
        match parse_digits s 0 0 with
        | (m, len, rest') => if (0 <? len)%Z then Some (m, rest') else None
        end
  | [] => None
  end.

Definition parse_frac (m : Z) (s : list ascii) : option (Z * Z * list ascii) :=
  match s with
  | c :: rest =>
      if Ascii.eqb c "." then
        match parse_digits rest m 0 with
        | (m', len, rest') => if (0 <? len)%Z then Some (m', len, rest') else None
        end
      else Some (m, 0%Z, s)
  | [] => Some (m, 0%Z, [])
  end.

Definition parse_exp (s : list ascii) : option (Z * list ascii) :=
  match s with
  | c :: rest =>
      if Ascii.eqb c "e" || Ascii.eqb c "E" then
        let '(neg, rest1) :=
          match rest with
          | sg :: rest0 =>
              if Ascii.eqb sg "-" then (true, rest0)
              else if Ascii.eqb sg "+" then (false, rest0)
              else (false, rest)
          | [] => (false, rest)
          end in
        match parse_digits rest1 0 0 with
        | (e, len, rest') =>
            if (0 <? len)%Z then Some (if neg then (- e)%Z else e, rest') else None
        end
      else Some (0%Z, s)
  | [] => Some (0%Z, [])
  end.

Definition parse_number (s : list ascii) : option (value * list ascii) :=
  let '(neg, s1) :=
    match s with
    | c :: rest => if Ascii.eqb c "-" then (true, rest) else (false, s)
    | [] => (false, s)
    end in
  match parse_int s1 with
  | None => None
  | Some (i, s2) =>
      match parse_frac i s2 with
      | None => None
      | Some (m, flen, s3) =>
          match parse_exp s3 with
          | None => None
          | Some (e, s4) => Some (VNumber (Number.of_decimal neg m (e - flen)), s4)
          end
      end
  end.

Fixpoint strip_prefix (p : string) (s : list ascii) : option (list ascii) :=
  match p, s with
  | EmptyString, _ => Some s
  | String a p', c :: rest => if Ascii.eqb a c then strip_prefix p' rest else None
  | String _ _, [] => None
  end.

(** Defining a property: a repeated name overwrites the earlier value. *)
Fixpoint define (k : string) (v : value) (props : list (string * value))
    : list (string * value) :=
  match props with
  | [] => [(k, v)]
  | (k', v') :: rest =>
      if String.eqb k' k then (k, v) :: rest else (k', v') :: define k v rest
  end.

Fixpoint parse_value (fuel : nat) (s : list ascii) : option (value * list ascii) :=
  match fuel with
  | O => None
  | S fuel' =>
      match skip_ws s with
      | [] => None
      | c :: rest =>
          if Ascii.eqb c dquote then
            match parse_chars rest [] with
            | Some (str, rest') => Some (VString str, rest')
            | None => None
            end
          else if Ascii.eqb c "[" then
            match skip_ws rest with
            | c' :: rest' =>
                if Ascii.eqb c' "]" then Some (VArray [], rest')
                else parse_elements fuel' rest []
            | [] => None
            end
          else if Ascii.eqb c "{" then
            match skip_ws rest with
            | c' :: rest' =>
                if Ascii.eqb c' "}" then Some (VObject [], rest')
                else parse_members fuel' rest []
            | [] => None
            end
          else if Ascii.eqb c "n" then
            option_map (pair VNull) (strip_prefix "ull" rest)
          else if Ascii.eqb c "t" then
            option_map (pair (VBool true)) (strip_prefix "rue" rest)
          else if Ascii.eqb c "f" then
            option_map (pair (VBool false)) (strip_prefix "alse" rest)
          else parse_number (c :: rest)
      end
  end
with parse_elements (fuel : nat) (s : list ascii) (acc : list value)
    : option (value * list ascii) :=
  match fuel with
  | O => None
  | S fuel' =>
      match parse_value fuel' s with
      | None => None
      | Some (v, rest) =>
          match skip_ws rest with
          | c :: rest' =>
              if Ascii.eqb c "," then parse_elements fuel' rest' (v :: acc)
              else if Ascii.eqb c "]" then Some (VArray (rev (v :: acc)), rest')
              else None
          | [] => None
          end
      end
  end
with parse_members (fuel : nat) (s : list ascii) (acc : list (string * value))
    : option (value * list ascii) :=
  match fuel with
  | O => None
  | S fuel' =>
      match skip_ws s with
      | q :: s1 =>
          if Ascii.eqb q dquote then
            match parse_chars s1 [] with
            | None => None
            | Some (k, s2) =>
                match skip_ws s2 with
                | colon :: s3 =>
                    if Ascii.eqb colon ":" then
                      match parse_value fuel' s3 with
                      | None => None
                      | Some (v, s4) =>
                          match skip_ws s4 with
                          | c :: rest' =>
                              if Ascii.eqb c ","
                              then parse_members fuel' rest' (define k v acc)
                              else if Ascii.eqb c "}"
                              then Some (VObject (define k v acc), rest')
                              else None
                          | [] => None
                          end
                      end
                    else None
                | [] => None
                end
            end
          else None
      | [] => None
      end
  end.

(** [JSON.parse(text)]: one value between optional white space. *)
Definition parse (text : string) : result value :=
  let s := list_ascii_of_string text in
  match parse_value (2 * List.length s + 2) s with
  | Some (v, rest) =>
      match skip_ws rest with
      | [] => Ok v
      | _ :: _ => Throw SyntaxError
      end
  | None => Throw SyntaxError
  end.

End JSON.

(** ** Example events and a scripted host *)

Module Example.

Definition delta_of (s : string) : value :=
  VObject
    [ ("content",
        VArray
          [ VObject
              [ ("index", VNumber (number_of_Z 0));
                ("type", VString "text");
                ("text", VObject [("value", VString s)]) ] ]) ].

Definition text_delta (s : string) : value :=
  VObject
    [ ("event", VString "thread.message.delta");
      ("data",
        VObject
          [ ("id", VString "msg_1");
            ("object", VString "thread.message.delta");
            ("delta", delta_of s) ]) ].

(** A text-delta event whose payload has no delta. *)
Definition empty_delta : value :=
  VObject
    [ ("event", VString "thread.message.delta");
      ("data",
        VObject [("id", VString "msg_1"); ("object", VString "thread.message.delta")]) ].

(** A delta whose first content block is an image: no text value. *)
Definition image_delta : value :=
  VObject
    [ ("content",
        VArray
          [ VObject
              [ ("index", VNumber (number_of_Z 0));
                ("type", VString "image_file");
                ("image_file", VObject [("file_id", VString "file_1")]) ] ]) ].

Definition image_event : value :=
  VObject
    [ ("event", VString "thread.message.delta");
      ("data", VObject [("id", VString "msg_1"); ("delta", image_delta)]) ].

Definition function_call (id name arguments : string) : value :=
  VObject
    [ ("id", VString id);
      ("type", VString "function");
      ("function",
        VObject [("name", VString name); ("arguments", VString arguments)]) ].

Definition run_payload (tool_calls : list value) : value :=
  VObject
    [ ("id", VString "run_1");
      ("thread_id", VString "thread_1");
      ("status", VString "requires_action");
      ("required_action",
        VObject
          [ ("type", VString "submit_tool_outputs");
            ("submit_tool_outputs", VObject [("tool_calls", VArray tool_calls)]) ]) ].

Definition requires_action (tool_calls : list value) : value :=
  VObject
    [ ("event", VString "thread.run.requires_action");
      ("data", run_payload tool_calls) ].

Definition run_created : value :=
  VObject
    [ ("event", VString "thread.run.created");
      ("data", VObject [("id", VString "run_1")]) ].

(** The argument text of a well-formed call: an object with a [symbol]. *)
Definition symbol_arguments (symbol : string) : string :=
  ("{" ++ String JSON.dquote "symbol" ++ String JSON.dquote ":"
     ++ String JSON.dquote symbol ++ String JSON.dquote "}")%string.

(** A client that answers every request and delivers the given streams. *)
Definition scripted (world : Type) (run resumed : stream) : OpenAI world :=
  {| assistants_retrieve := fun id w => (Ok (VObject [("id", id)]), w);
     assistants_create := fun _ w => (Ok (VObject [("id", VString "asst_new")]), w);
     threads_create := fun w => (Ok (VObject [("id", VString "thread_1")]), w);
     threads_messages_create :=
       fun _ _ w => (Ok (VObject [("id", VString "msg_0")]), w);
     threads_runs_stream := fun _ _ w => (run, w);
     threads_runs_submitToolOutputsStream := fun _ _ _ w => (resumed, w) |}.

(** The world is the list of the draws [Math.random] is going to return. *)
Definition next_draw (w : list number) : number * list number :=
  match w with
  | [] => (S754_zero false, [])
  | r :: rest => (r, rest)
  end.

Definition scripted_host (assistant_id : option string) (run resumed : stream)
    : Host :=
  {| world := list number;
     Math_random := next_draw;
     Number_toString := Number.toString;
     JSON_parse := JSON.parse;
     ASSISTANT_ID := assistant_id;
     AZURE_DEPLOYMENT_NAME := Some "gpt-4o";
     AzureOpenAI := scripted (list number) run resumed |}.

Definition half : number := Number.of_decimal false 5 (-1).

(** A reply made of text deltas only. *)
Definition text_chunks : list value :=
  [text_delta "Hel"; empty_delta; text_delta "lo"].

Definition text_host : Host := scripted_host None (stream_of_list text_chunks) SEnd.

(** A reply that asks for a stock price in its middle; the stream resumed
    with the tool outputs asks for an action again, which is not served. *)
Definition price_call : value :=
  function_call "call_1" "getStockPrice" (symbol_arguments "AAPL").

Definition weather_call : value := function_call "call_2" "getWeather" "Paris".

Definition resumed_chunks : list value :=
  [text_delta "The price"; requires_action [price_call]; run_created;
   text_delta " is 500"].

Definition price_host : Host :=
  scripted_host (Some "asst_9")
    (stream_of_list
       [text_delta "A"; requires_action [price_call; weather_call]; text_delta "Z"])
    (stream_of_list resumed_chunks).

(** The same reply, with arguments that are not a JSON text. *)
Definition malformed_call : value := function_call "call_1" "getStockPrice" "{".

Definition malformed_host : Host :=
  scripted_host (Some "asst_9")
    (stream_of_list
       [text_delta "A"; requires_action [malformed_call]; text_delta "Z"])
    (stream_of_list resumed_chunks).

End Example.

(** ** Vocabulary of the specification *)

Definition trace_of {W A : Type} (x : trace * result A * W) : trace := fst (fst x).
Definition outcome_of {W A : Type} (x : trace * result A * W) : result A := snd (fst x).

(** The text value of a content block, when the block has one.  The outer
    [None] marks a block that is not shaped like a content block. *)
Definition block_text (block : value) : option (option string) :=
  match block with
  | VObject b =>
      match lookup "text" b with
      | VUndefined | VNull => Some None
      | VObject t =>
          match lookup "value" t with
          | VUndefined | VNull => Some None
          | VString s => Some (Some s)
          | _ => None
          end
      | _ => None
      end
  | _ => None
  end.

(** The text value of the first content block of a delta payload. *)
Definition delta_payload_text (delta : value) : option (option string) :=
  match delta with
  | VObject d =>
      match lookup "content" d with
      | VArray [] => Some None
      | VArray (block :: _) => block_text block
      | _ => None
      end
  | _ => None
  end.

Definition or_empty (t : option string) : string :=
  match t with
  | Some s => s
  | None => EmptyString
  end.

(** [chunk] is an event of kind [kind] whose data payload is [data]. *)
Definition event_of_kind (kind : string) (chunk data : value) : Prop :=
  exists event,
    get chunk "event" = Ok event /\ is_string event kind = true /\
    get chunk "data" = Ok data.

(** [chunk] is an incremental text-delta event whose payload has [delta]
    in its delta field ([VUndefined] when it has none). *)
Definition text_delta_event (chunk delta : value) : Prop :=
  exists data,
    event_of_kind "thread.message.delta" chunk data /\ get data "delta" = Ok delta.

(** The text a well-formed text-delta event contributes to the reply;
    [None] for anything else. *)
Definition event_text (chunk : value) : option string :=
  match chunk with
  | VObject c =>
      if is_string (lookup "event" c) "thread.message.delta" then
        match lookup "data" c with
        | VObject d =>
            match lookup "delta" d with
            | VUndefined | VNull => Some EmptyString
            | delta => option_map or_empty (delta_payload_text delta)
            end
        | _ => None
        end
      else None
  | _ => None
  end.

(** A trace with no client call and no logged error. *)
Definition quiet (t : trace) : Prop := calls t = [] /\ logged_errors t = [].

(** What a [catch] block writes for the outcome of its [try] block. *)
Definition failure_log (msg : string) (r : result unit) : trace :=
  match r with
  | Ok _ => []
  | Throw e => [LogError msg e]
  end.

Definition done_log (r : result unit) : trace :=
  match r with
  | Ok _ => [Log "Done!" None]
  | Throw _ => []
  end.

Definition is_assistant_request (req : request) : bool :=
  match req with
  | AssistantsRetrieve _ | AssistantsCreate _ => true
  | _ => false
  end.

Definition is_text_delta (chunk : value) : bool :=
  match get chunk "event" with
  | Ok event => is_string event "thread.message.delta"
  | Throw _ => false
  end.

Fixpoint stream_filter (p : value -> bool) (s : stream) : stream :=
  match s with
  | SChunk chunk rest =>
      if p chunk then SChunk chunk (stream_filter p rest) else stream_filter p rest
  | _ => s
  end.

Fixpoint stream_forallb (p : value -> bool) (s : stream) : bool :=
  match s with
  | SChunk chunk rest => p chunk && stream_forallb p rest
  | _ => true
  end.

(** The tool-call list of a requires-action payload. *)
Definition tool_calls_of (run : value) : result value :=
  match get run "required_action" with
  | Ok required_action =>
      match get required_action "submit_tool_outputs" with
      | Ok submit_tool_outputs => get submit_tool_outputs "tool_calls"
      | Throw e => Throw e
      end
  | Throw e => Throw e
  end.

(** The declared name of a tool call. *)
Definition tool_name (toolCall : value) : result value :=
  match get toolCall "function" with
  | Ok fn => get fn "name"
  | Throw e => Throw e
  end.

Definition tool_arguments (toolCall : value) : result value :=
  match get toolCall "function" with
  | Ok fn => get fn "arguments"
  | Throw e => Throw e
  end.

Section Vocabulary.
Context {host : Host}.

(** The assistant identifier, when one is configured (set and not empty). *)
Definition configured_assistant : option string :=
  match ASSISTANT_ID with
  | Some id => if String.eqb id EmptyString then None else Some id
  | None => None
  end.

(** A tool call the dispatcher can answer: it declares a name, and when
    the name is [getStockPrice] its arguments are the JSON text of a
    value other than [null]. *)
Definition dispatchable (toolCall : value) : bool :=
  match tool_name toolCall with
  | Ok name =>
      if is_string name "getStockPrice" then
        match tool_arguments toolCall with
        | Ok arguments =>
            match JSON_parse (to_string arguments) with
            | Ok parsed => negb (nullish parsed)
            | Throw _ => false
            end
        | Throw _ => false
        end
      else true
  | Throw _ => false
  end.

(** [output] is what the dispatcher hands back for [toolCall]: a Tool
    Output carrying the identifier of the call and the string of a
    number for a [getStockPrice] call, the call itself otherwise. *)
Inductive answers (toolCall : value) : value -> Prop :=
| answers_price (name id : value) (n : number) :
    tool_name toolCall = Ok name ->
    is_string name "getStockPrice" = true ->
    get toolCall "id" = Ok id ->
    answers toolCall
      (VObject [("tool_call_id", id); ("output", VString (Number_toString n))])
| answers_pass (name : value) :
    tool_name toolCall = Ok name ->
    is_string name "getStockPrice" = false ->
    answers toolCall toolCall.

(** How a dispatch goes: normally, or with the exception met while the
    outputs are computed or while the resumed stream is read. *)
Definition dispatch_outcome (openai : OpenAI world)
    (run runId threadId : value) (w : world) : result unit :=
  match awaitToolOutputs run w with
  | (_, Throw e, _) => Throw e
  | (_, Ok toolOutputs, w1) =>
      let body := VObject [("tool_outputs", VArray toolOutputs)] in
      let '(s, w2) :=
        threads_runs_submitToolOutputsStream openai threadId runId body w1 in
      outcome_of (for_await s onToolOutputChunk w2)
  end.

End Vocabulary.

(** ** The HTTP endpoint *)

(** What the handler reads from the request of the Functions runtime:
    its URL and its body as text (a promise, which may reject). *)
Record HttpRequest (world : Type) : Type := {
  url : string;
  text : world -> result string * world
}.
Arguments url {world} _.
Arguments text {world} _ _.

(** The object the handler returns: the headers, and the generator the
    body is read from.  Calling [processQuery] runs none of it; the
    generator runs when the body is read. *)
Record HttpResponseInit (world : Type) : Type := {
  headers : list (string * string);
  body : M world unit
}.
Arguments headers {world} _.
Arguments body {world} _.

Section Endpoint.
Context {host : Host}.

Definition await_text (request : HttpRequest world) : M world string :=
  fun w => let '(r, w1) := text request w in ([], r, w1).

(** The log line of the handler: the URL between double quotes. *)
Definition request_line (request : HttpRequest world) : string :=
  ("Http function processed request for url "
     ++ String "034" (url request ++ String "034" EmptyString))%string.

(** The handler registered with [app.http] under the name [assistant]. *)
Definition handler (request : HttpRequest world) : M world (HttpResponseInit world) :=
  context_log (request_line request) ;;
  query <- await_text request ;;
  ret {| headers := [("Content-Type", "text/plain"); ("Transfer-Encoding", "chunked")];
         body := processQuery query |}.

(** The handler followed by the reading of the body it returned, as the
    runtime does to send the response. *)
Definition respond (request : HttpRequest world) : M world (list (string * string)) :=
  response <- handler request ;;
  body response ;;
  ret (headers response).

End Endpoint.

(** ** More vocabulary *)

Definition is_requires_action (chunk : value) : bool :=
  match get chunk "event" with
  | Ok event => is_string event "thread.run.requires_action"
  | Throw _ => false
  end.

(** The two kinds of event the outer loop reacts to. *)
Definition is_handled (chunk : value) : bool :=
  is_text_delta chunk || is_requires_action chunk.

(** A fragment is a truthy value or the empty string. *)
Definition fragment_ok (v : value) : bool :=
  truthy v || is_string v EmptyString.

Definition is_price_call (toolCall : value) : bool :=
  match tool_name toolCall with
  | Ok name => is_string name "getStockPrice"
  | Throw _ => false
  end.

Section MoreVocabulary.
Context {host : Host}.

(** The Tool Output for the call [id] when the random draw is [r]. *)
Definition price_output (id : value) (r : number) : value :=
  VObject
    [("tool_call_id", id);
     ("output", VString (Number_toString (number_mul r (number_of_Z 1000))))].

(** The outputs of a list of answerable calls, read off the list: one
    draw per price call, in the order of the calls. *)
Fixpoint drawn_outputs (toolCalls : list value) (w : world) : list value * world :=
  match toolCalls with
  | [] => ([], w)
  | toolCall :: rest =>
      if is_price_call toolCall then
        let '(r, w1) := Math_random w in
        let '(outputs, w2) := drawn_outputs rest w1 in
        (price_output (get_opt toolCall "id") r :: outputs, w2)
      else
        let '(outputs, w2) := drawn_outputs rest w in
        (toolCall :: outputs, w2)
  end.

(** A requires-action event the dispatcher can serve: it has a payload
    whose tool calls are an array of answerable calls. *)
Definition answerable_event (chunk : value) : bool :=
  match get chunk "data" with
  | Ok data =>
      negb (nullish data) &&
      match tool_calls_of data with
      | Ok (VArray toolCalls) => forallb dispatchable toolCalls
      | _ => false
      end
  | Throw _ => false
  end.

(** An event the outer loop reads without raising. *)
Definition readable_event (chunk : value) : bool :=
  negb (nullish chunk) &&
  (if is_text_delta chunk
   then match event_text chunk with Some _ => true | None => false end
   else if is_requires_action chunk then answerable_event chunk
   else true).

End MoreVocabulary.

Module Scenario.

(** A text-delta event whose delta has no content array. *)
Definition bare_delta : value :=
  VObject
    [ ("event", VString "thread.message.delta");
      ("data", VObject [("id", VString "msg_1"); ("delta", VObject [("role", VString "assistant")])]) ].

(** A requires-action event without a data payload. *)
Definition action_without_data : value :=
  VObject [("event", VString "thread.run.requires_action")].

(** A requires-action payload without its required action. *)
Definition run_without_action : value :=
  VObject [("id", VString "run_1"); ("thread_id", VString "thread_1")].

Definition quarter : number := Number.of_decimal false 25 (-2).

(** A run stream that breaks after two fragments. *)
Definition broken_host : Host :=
  Example.scripted_host None
    (stream_app [Example.text_delta "Hel"; Example.text_delta "lo"]
       (SFail (HostError (VString "connection reset"))))
    SEnd.

(** A client whose first request is rejected. *)
Definition rejecting (world : Type) : OpenAI world :=
  {| assistants_retrieve := fun _ w => (Throw (HostError (VString "401")), w);
     assistants_create := fun _ w => (Throw (HostError (VString "401")), w);
     threads_create := fun w => (Ok (VObject [("id", VString "thread_1")]), w);
     threads_messages_create := fun _ _ w => (Ok (VObject []), w);
     threads_runs_stream := fun _ _ w => (SEnd, w);
     threads_runs_submitToolOutputsStream := fun _ _ _ w => (SEnd, w) |}.

Definition rejecting_host : Host :=
  {| world := list number;
     Math_random := Example.next_draw;
     Number_toString := Number.toString;
     JSON_parse := JSON.parse;
     ASSISTANT_ID := Some "asst_9";
     AZURE_DEPLOYMENT_NAME := None;
     AzureOpenAI := rejecting (list number) |}.

(** A resumed stream with a malformed event in its middle. *)
Definition faulty_resumed_host : Host :=
  Example.scripted_host None
    (stream_of_list [Example.requires_action [Example.price_call]])
    (stream_of_list [Example.text_delta "The price"; bare_delta; Example.text_delta " is 500"]).

(** Two rounds of tool calls on the outer stream, with events of other
    kinds in between. *)
Definition two_rounds : list value :=
  [ Example.run_created; Example.text_delta "A";
    Example.requires_action [Example.price_call];
    Example.run_created;
    Example.requires_action [Example.weather_call; Example.price_call];
    Example.text_delta "Z" ].

Definition two_rounds_host : Host :=
  Example.scripted_host None (stream_of_list two_rounds)
    (stream_of_list [Example.text_delta "ok"]).

Definition post (body : string) : HttpRequest (list number) :=
  {| url := "http://localhost:7071/api/assistant";
     text := fun w => (Ok body, w) |}.

End Scenario.

(** ** Properties *)

Section Properties.
Context {host : Host}.

Local Abbreviation M := (M world).
Local Abbreviation OpenAI := (OpenAI world).

Lemma bind_assoc {A B C} (m : M A) (f : A -> M B) (g : B -> M C) (w : world) :
  bind (bind m f) g w = bind m (fun x => bind (f x) g) w.
Proof.
  unfold bind. destruct (m w) as [[t1 [a|e]] w1]; [|reflexivity].
  destruct (f a w1) as [[t2 [b|e]] w2]; [|reflexivity].
  destruct (g b w2) as [[t3 r3] w3]. now rewrite app_assoc.
Qed.

Lemma bind_ext {A B} (m : M A) (f g : A -> M B) (w : world) :
  (forall a w1, f a w1 = g a w1) -> bind m f w = bind m g w.
Proof.
  intros H. unfold bind. destruct (m w) as [[t1 [a|e]] w1]; [|reflexivity].
  now rewrite H.
Qed.

Lemma bind_lift_ok {A B} (a : A) (f : A -> M B) (w : world) :
  bind (lift (Ok a)) f w = f a w.
Proof. unfold bind, lift. now destruct (f a w) as [[t r] w']. Qed.

Lemma bind_lift_throw {A B} (e : error) (f : A -> M B) (w : world) :
  bind (lift (Throw e)) f w = ([], Throw e, w).
Proof. reflexivity. Qed.

Lemma bind_ret {A B} (a : A) (f : A -> M B) (w : world) :
  bind (ret a) f w = f a w.
Proof. unfold bind, ret. now destruct (f a w) as [[t r] w']. Qed.

Lemma bind_emit {B} (e : effect) (k : M B) (w : world) :
  bind (emit e) (fun _ => k) w =
  let '(t, r, w') := k w in (e :: t, r, w').
Proof. unfold bind, emit. now destruct (k w) as [[t r] w']. Qed.

(** *** One event *)

Lemma delta_text_spec (delta : value) (tv : option string) :
  delta_payload_text delta = Some tv ->
  delta_text delta = Ok (VString (or_empty tv)) /\ truthy delta = true.
Proof.
  destruct delta as [| | | | |?|d]; try discriminate.
  unfold delta_payload_text, delta_text, get.
  destruct (lookup "content" d) as [| | | | |blocks|?]; try discriminate.
  destruct blocks as [|block blocks].
  - intros [= <-]. now split.
  - destruct block as [| | | | |?|b]; try discriminate.
    unfold block_text, get_index, nth, get_opt, get, nullish.
    destruct (lookup "text" b) as [| | | | |?|t]; try discriminate;
      try (intros [= <-]; now split).
    destruct (lookup "value" t) as [| | | |s|?|?]; try discriminate;
      try (intros [= <-]; now split).
    intros [= <-]. split; [|reflexivity].
    unfold or_else, truthy, or_empty. now destruct s.
Qed.

Lemma is_string_neq (v : value) (a b : string) :
  is_string v a = true -> a <> b -> is_string v b = false.
Proof.
  destruct v; try discriminate. cbn. intros Ha Hab.
  apply String.eqb_eq in Ha. subst. now apply String.eqb_neq.
Qed.

Lemma onChunk_text_delta (openai : OpenAI) (chunk delta : value) (w : world) :
  text_delta_event chunk delta ->
  onChunk openai chunk w =
  if truthy delta then
    match delta_text delta with
    | Ok value =>
        ([Yield value;
          Log "Processed thread.message.delta" (Some (VObject [("value", value)]))],
         Ok tt, w)
    | Throw e => ([], Throw e, w)
    end
  else ([], Ok tt, w).
Proof.
  intros (data & (event & He & Hk & Hd) & Hdelta).
  unfold onChunk. rewrite He, bind_lift_ok, Hd, bind_lift_ok, Hk.
  rewrite Hdelta, bind_lift_ok.
  destruct (truthy delta); [|reflexivity].
  destruct (delta_text delta) as [value|e]; [|reflexivity].
  rewrite bind_lift_ok. reflexivity.
Qed.

Lemma onToolOutputChunk_text_delta (chunk delta : value) (w : world) :
  text_delta_event chunk delta ->
  onToolOutputChunk chunk w =
  if truthy delta then
    match delta_text delta with
    | Ok value =>
        ([Yield value;
          Log "Processed thread.message.delta (tool output)"
            (Some (VObject [("value", value)]))],
         Ok tt, w)
    | Throw e => ([], Throw e, w)
    end
  else ([], Ok tt, w).
Proof.
  intros (data & (event & He & Hk & Hd) & Hdelta).
  unfold onToolOutputChunk. rewrite He, bind_lift_ok, Hk.
  rewrite Hd, bind_lift_ok, Hdelta, bind_lift_ok.
  destruct (truthy delta); [|reflexivity].
  destruct (delta_text delta) as [value|e]; [|reflexivity].
  rewrite bind_lift_ok. reflexivity.
Qed.

(** *** Reading a stream *)

Lemma for_await_app (body : value -> M unit) (chunks : list value)
    (s : stream) (w : world) :
  for_await (stream_app chunks s) body w =
  bind (for_await (stream_of_list chunks) body) (fun _ => for_await s body) w.
Proof.
  unfold stream_of_list.
  revert w. induction chunks as [|c chunks IH]; intro w;
    cbn [stream_app for_await].
  - now rewrite bind_ret.
  - rewrite bind_assoc. apply bind_ext. intros _ w1. apply IH.
Qed.

Lemma yields_app (t1 t2 : trace) : yields (t1 ++ t2) = yields t1 ++ yields t2.
Proof. apply flat_map_app. Qed.

Lemma calls_app (t1 t2 : trace) : calls (t1 ++ t2) = calls t1 ++ calls t2.
Proof. apply flat_map_app. Qed.

Lemma logged_errors_app (t1 t2 : trace) :
  logged_errors (t1 ++ t2) = logged_errors t1 ++ logged_errors t2.
Proof. apply flat_map_app. Qed.

Lemma concat_cons (x : string) (xs : list string) :
  String.concat EmptyString (x :: xs) = (x ++ String.concat EmptyString xs)%string.
Proof.
  destruct xs as [|y ys]; cbn; [|reflexivity].
  induction x as [|c x IH]; cbn; congruence.
Qed.

Lemma append_assoc (x y z : string) : ((x ++ y) ++ z = x ++ (y ++ z))%string.
Proof. induction x as [|c x IH]; cbn; congruence. Qed.

Lemma concat_app (xs ys : list string) :
  String.concat EmptyString (xs ++ ys) =
  (String.concat EmptyString xs ++ String.concat EmptyString ys)%string.
Proof.
  induction xs as [|x xs IH]; [reflexivity|].
  cbn [app]. now rewrite !concat_cons, IH, append_assoc.
Qed.

(** What a well-formed text-delta event does in the outer loop. *)
Lemma onChunk_event_text (openai : OpenAI) (chunk : value) (s : string) (w : world) :
  event_text chunk = Some s ->
  exists frags : list string,
    onChunk openai chunk w =
      (flat_map (fun f =>
         [Yield (VString f);
          Log "Processed thread.message.delta"
            (Some (VObject [("value", VString f)]))]) frags, Ok tt, w) /\
    String.concat EmptyString frags = s.
Proof.
  destruct chunk as [| | | | | |c]; try discriminate. cbn [event_text].
  destruct (is_string (lookup "event" c) "thread.message.delta") eqn:Hk;
    [|discriminate].
  destruct (lookup "data" c) as [| | | | | |d] eqn:Hd; try discriminate.
  intros Ht.
  assert (Hev : text_delta_event (VObject c) (lookup "delta" d)).
  { exists (VObject d). split; [|reflexivity].
    exists (lookup "event" c). cbn. now rewrite Hd. }
  rewrite (onChunk_text_delta openai _ _ w Hev).
  destruct (lookup "delta" d) as [| | | | | |dl] eqn:Hdl;
    try (cbn in Ht; discriminate);
    try (injection Ht as <-; exists []; now split).
  destruct (delta_payload_text (VObject dl)) as [tv|] eqn:Htv; [|discriminate].
  injection Ht as <-.
  destruct (delta_text_spec _ _ Htv) as [-> ->].
  exists [or_empty tv]. now split.
Qed.

(** *** The dispatch *)

Lemma quiet_app (t1 t2 : trace) : quiet t1 -> quiet t2 -> quiet (t1 ++ t2).
Proof.
  intros [C1 E1] [C2 E2]. split.
  - now rewrite calls_app, C1, C2.
  - now rewrite logged_errors_app, E1, E2.
Qed.

Lemma onToolOutputChunk_quiet (chunk : value) (w : world) :
  exists t r, onToolOutputChunk chunk w = (t, r, w) /\ quiet t.
Proof.
  unfold onToolOutputChunk.
  destruct (get chunk "event") as [event|e];
    [rewrite bind_lift_ok | now exists [], (Throw e)].
  destruct (is_string event "thread.message.delta");
    [|now exists [], (Ok tt)].
  destruct (get chunk "data") as [data|e];
    [rewrite bind_lift_ok | now exists [], (Throw e)].
  destruct (get data "delta") as [delta|e];
    [rewrite bind_lift_ok | now exists [], (Throw e)].
  destruct (truthy delta); [|now exists [], (Ok tt)].
  destruct (delta_text delta) as [value|e];
    [rewrite bind_lift_ok | now exists [], (Throw e)].
  eexists _, _. split; [reflexivity|]. now split.
Qed.

Lemma for_await_toolOutput_quiet (s : stream) (w : world) :
  exists t r, for_await s onToolOutputChunk w = (t, r, w) /\ quiet t.
Proof.
  induction s as [|e|chunk rest IH]; cbn [for_await].
  - now exists [], (Ok tt).
  - now exists [], (Throw e).
  - destruct (onToolOutputChunk_quiet chunk w) as (t1 & r1 & H1 & Q1).
    destruct IH as (t2 & r2 & H2 & Q2).
    unfold bind. rewrite H1. destruct r1 as [[]|e].
    + rewrite H2. exists (t1 ++ t2), r2. split; [reflexivity|].
      now apply quiet_app.
    + now exists t1, (Throw e).
Qed.

(** The effects of [submitToolOutputs]: one request, the fragments of
    the resumed stream, and the failure, if any, logged last. *)
Lemma submitToolOutputs_run (openai : OpenAI) (toolOutputs : list value)
    (runId threadId : value) (w : world) :
  let body := VObject [("tool_outputs", VArray toolOutputs)] in
  let '(s, w1) := threads_runs_submitToolOutputsStream openai threadId runId body w in
  let '(t, r, w2) := for_await s onToolOutputChunk w1 in
  submitToolOutputs openai toolOutputs runId threadId w =
    (Log "Call Tool output and stream the response" None
       :: Call (SubmitToolOutputsStream threadId runId body)
       :: t ++ failure_log "Error submitting tool outputs:" r,
     Ok tt, w2).
Proof.
  cbn zeta. unfold submitToolOutputs, try_catch, context_log.
  rewrite bind_emit. unfold bind, request_stream.
  destruct (threads_runs_submitToolOutputsStream _ _ _ _ _) as [s w1].
  destruct (for_await s onToolOutputChunk w1) as [[t [[]|e]] w2]; cbn.
  - now rewrite app_nil_r.
  - reflexivity.
Qed.

Lemma getStockPrice_silent (symbol : value) (w : world) :
  exists r w1, getStockPrice symbol w = ([], r, w1).
Proof.
  unfold getStockPrice. destruct (Math_random w) as [r w1]. now eexists _, _.
Qed.

Lemma toolOutput_silent (toolCall : value) (w : world) :
  exists r w1, toolOutput toolCall w = ([], r, w1).
Proof.
  unfold toolOutput.
  destruct (get toolCall "function") as [fn|e];
    [rewrite bind_lift_ok | now exists (Throw e), w].
  destruct (get fn "name") as [name|e];
    [rewrite bind_lift_ok | now exists (Throw e), w].
  destruct (is_string name "getStockPrice"); [|now exists (Ok toolCall), w].
  destruct (get toolCall "id") as [id|e];
    [rewrite !bind_lift_ok | now exists (Throw e), w].
  destruct (get fn "arguments") as [arguments|e];
    [rewrite bind_lift_ok | now exists (Throw e), w].
  destruct (JSON_parse (to_string arguments)) as [parsed|e];
    [rewrite bind_lift_ok | now exists (Throw e), w].
  destruct (get parsed "symbol") as [symbol|e];
    [rewrite bind_lift_ok | now exists (Throw e), w].
  unfold bind. destruct (getStockPrice_silent symbol w) as (r & w1 & ->).
  destruct r; now eexists _, _.
Qed.

Lemma map_async_silent (xs : list value) (w : world) :
  exists ps w1, map_async toolOutput xs w = ([], Ok ps, w1).
Proof.
  revert w. induction xs as [|x xs IH]; intro w; cbn [map_async].
  - now exists [], w.
  - unfold bind at 1, settle.
    destruct (toolOutput_silent x w) as (r & w1 & ->).
    unfold bind. destruct (IH w1) as (ps & w2 & ->).
    now exists (r :: ps), w2.
Qed.

Lemma awaitToolOutputs_silent (run : value) (w : world) :
  exists r w1, awaitToolOutputs run w = ([], r, w1).
Proof.
  unfold awaitToolOutputs.
  destruct (get run "required_action") as [ra|e];
    [rewrite bind_lift_ok | now exists (Throw e), w].
  destruct (get ra "submit_tool_outputs") as [sto|e];
    [rewrite bind_lift_ok | now exists (Throw e), w].
  destruct (get sto "tool_calls") as [tool_calls|e];
    [rewrite bind_lift_ok | now exists (Throw e), w].
  unfold bind, array_map_async.
  destruct tool_calls as [| | | | |xs|]; try now exists (Throw TypeError), w.
  destruct (map_async_silent xs w) as (ps & w1 & ->).
  unfold lift. now exists (Promise_all ps), w1.
Qed.

Lemma handleRequiresAction_run (openai : OpenAI) (run runId threadId : value)
    (w : world) :
  handleRequiresAction openai run runId threadId w =
  match awaitToolOutputs run w with
  | (_, Ok toolOutputs, w1) =>
      let '(t, _, w2) := submitToolOutputs openai toolOutputs runId threadId w1 in
      (Log "Handle Function Calling" None :: t, Ok tt, w2)
  | (_, Throw e, w1) =>
      ([Log "Handle Function Calling" None;
        LogError "Error processing required action:" e], Ok tt, w1)
  end.
Proof.
  unfold handleRequiresAction, context_log. rewrite bind_emit.
  unfold try_catch, bind.
  destruct (awaitToolOutputs_silent run w) as (r & w1 & ->).
  destruct r as [outs|e]; [|reflexivity].
  pose proof (submitToolOutputs_run openai outs runId threadId w1) as H.
  cbn zeta in H.
  destruct (threads_runs_submitToolOutputsStream _ _ _ _ _) as [s w2].
  destruct (for_await s onToolOutputChunk w2) as [[t r] w3].
  now rewrite H.
Qed.

(** The dispatch never raises: whatever goes wrong in it is caught. *)
Lemma handleRequiresAction_returns (openai : OpenAI) (run runId threadId : value)
    (w : world) :
  outcome_of (handleRequiresAction openai run runId threadId w) = Ok tt.
Proof.
  rewrite handleRequiresAction_run.
  destruct (awaitToolOutputs run w) as [[t [outs|e]] w1]; [|reflexivity].
  now destruct (submitToolOutputs openai outs runId threadId w1) as [[t1 r1] w2].
Qed.

Lemma onChunk_requires_action (openai : OpenAI) (chunk data runId threadId : value)
    (w : world) :
  event_of_kind "thread.run.requires_action" chunk data ->
  get data "id" = Ok runId ->
  get data "thread_id" = Ok threadId ->
  onChunk openai chunk w = handleRequiresAction openai data runId threadId w.
Proof.
  intros (event & He & Hk & Hd) Hid Hth.
  unfold onChunk. rewrite He, bind_lift_ok, Hd, bind_lift_ok.
  rewrite (is_string_neq _ _ "thread.message.delta" Hk) by discriminate.
  now rewrite Hk, Hid, bind_lift_ok, Hth, bind_lift_ok.
Qed.

(** *** The whole query *)

Lemma processQuery_run (userQuery : string) (w0 : world) :
  processQuery userQuery w0 =
  match openRun userQuery w0 with
  | (t0, Ok (openai, run), w1) =>
      let '(t, r, w2) := for_await run (onChunk openai) w1 in
      (t0 ++ Log "Step 5: Read streamed response" None :: t ++ done_log r, r, w2)
  | (t0, Throw e, w1) => (t0, Throw e, w1)
  end.
Proof.
  unfold processQuery. unfold bind at 1.
  destruct (openRun userQuery w0) as [[t0 [[openai run]|e]] w1]; [|reflexivity].
  unfold context_log. rewrite bind_emit. unfold bind, emit.
  destruct (for_await run (onChunk openai) w1) as [[t [[]|e]] w2]; cbn.
  - reflexivity.
  - now rewrite app_nil_r.
Qed.

(** Steps 0 to 4 yield nothing, log no error, and ask for the assistant
    first and only once. *)
Lemma openRun_trace (userQuery : string) (w0 : world) :
  let t0 := trace_of (openRun userQuery w0) in
  yields t0 = [] /\ logged_errors t0 = [] /\
  exists rest,
    calls t0 =
      (if truthy (env_value ASSISTANT_ID)
       then AssistantsRetrieve (env_value ASSISTANT_ID)
       else AssistantsCreate assistantDefinition) :: rest /\
    existsb is_assistant_request rest = false.
Proof.
  cbn zeta. unfold openRun, initAzureOpenAI, context_log, request_value,
    request_stream.
  rewrite bind_emit. rewrite bind_assoc, bind_emit, bind_ret, bind_emit.
  unfold bind, lift, emit, ret, trace_of.
  assert (Hend : forall P Q (f : request) (l : list request),
             P -> Q -> existsb is_assistant_request l = false ->
             P /\ Q /\ exists rest, f :: l = f :: rest /\
               existsb is_assistant_request rest = false).
  { intros P Q f l HP HQ Hl. repeat split; trivial. now exists l. }
  destruct (truthy (env_value ASSISTANT_ID)).
  - destruct (assistants_retrieve _ _ _) as [[assistant|e] w1]; cbn;
      [|now apply Hend].
    destruct (threads_create _ _) as [[thread|e] w2]; cbn; [|now apply Hend].
    destruct (get thread "id") as [threadId|e]; cbn; [|now apply Hend].
    destruct (threads_messages_create _ _ _ _) as [[message|e] w3]; cbn;
      [|now apply Hend].
    destruct (get assistant "id") as [assistantId|e]; cbn; [|now apply Hend].
    destruct (threads_runs_stream _ _ _ _) as [run w4]; cbn. now apply Hend.
  - destruct (assistants_create _ _ _) as [[assistant|e] w1]; cbn;
      [|now apply Hend].
    destruct (threads_create _ _) as [[thread|e] w2]; cbn; [|now apply Hend].
    destruct (get thread "id") as [threadId|e]; cbn; [|now apply Hend].
    destruct (threads_messages_create _ _ _ _) as [[message|e] w3]; cbn;
      [|now apply Hend].
    destruct (get assistant "id") as [assistantId|e]; cbn; [|now apply Hend].
    destruct (threads_runs_stream _ _ _ _) as [run w4]; cbn. now apply Hend.
Qed.

Lemma openRun_yields (userQuery : string) (w0 w1 : world) (t0 : trace)
    (r : result (OpenAI * stream)) :
  openRun userQuery w0 = (t0, r, w1) -> yields t0 = [].
Proof.
  intros H. destruct (openRun_trace userQuery w0) as (Y0 & _).
  now rewrite H in Y0.
Qed.

Lemma yields_fragments (msg : string) (frags : list string) :
  yields
    (flat_map (fun f =>
       [Yield (VString f); Log msg (Some (VObject [("value", VString f)]))])
       frags) = map VString frags.
Proof.
  unfold yields. induction frags as [|f frags IH]; cbn; [reflexivity|].
  now rewrite IH.
Qed.

Lemma for_await_text_deltas (openai : OpenAI) (chunks : list value)
    (texts : list string) (w : world) :
  map event_text chunks = map Some texts ->
  exists (frags : list string) (t : trace),
    for_await (stream_of_list chunks) (onChunk openai) w = (t, Ok tt, w) /\
    yields t = map VString frags /\
    String.concat EmptyString frags = String.concat EmptyString texts.
Proof.
  unfold stream_of_list. revert texts.
  induction chunks as [|c chunks IH]; intros [|s texts] H; try discriminate.
  - now exists [], [].
  - cbn [map] in H. injection H as Hc Hrest.
    destruct (onChunk_event_text openai c s w Hc) as (f1 & H1 & C1).
    destruct (IH texts Hrest) as (f2 & t2 & H2 & Y2 & C2).
    exists (f1 ++ f2). eexists. cbn [stream_app for_await].
    unfold bind. rewrite H1, H2. split; [reflexivity|]. split.
    + now rewrite yields_app, yields_fragments, Y2, map_app.
    + now rewrite concat_cons, <- C1, <- C2, concat_app.
Qed.

(** C1. When the run stream carries only well-formed text-delta events,
    [processQuery] returns normally once the stream is exhausted, and
    the fragments it yielded, concatenated, are the concatenation of the
    text values of the events in delivery order. *)
Theorem processQuery_text_deltas (userQuery : string) (w0 w1 : world)
    (t0 : trace) (openai : OpenAI) (chunks : list value) (texts : list string) :
  openRun userQuery w0 = (t0, Ok (openai, stream_of_list chunks), w1) ->
  map event_text chunks = map Some texts ->
  exists (frags : list string) (t : trace),
    processQuery userQuery w0 = (t ++ [Log "Done!" None], Ok tt, w1) /\
    yields t = map VString frags /\
    String.concat EmptyString frags = String.concat EmptyString texts.
Proof.
  intros Hopen Htexts.
  destruct (for_await_text_deltas openai chunks texts w1 Htexts)
    as (frags & t & Hloop & Hy & Hc).
  exists frags, (t0 ++ Log "Step 5: Read streamed response" None :: t).
  rewrite processQuery_run, Hopen, Hloop. cbn [done_log].
  split; [|split; [|exact Hc]].
  - now rewrite <- app_assoc.
  - rewrite yields_app, (openRun_yields _ _ _ _ _ Hopen). exact Hy.
Qed.

(** C2. The fragments of a delegated dispatch appear in the output of
    [processQuery] as one block, after the fragments of the outer events
    that precede the requires-action event and before those of the outer
    events that follow it. *)
Theorem dispatch_fragments_contiguous (userQuery : string) (w0 w1 w2 : world)
    (t0 tpre : trace) (openai : OpenAI) (pre : list value)
    (chunk data runId threadId : value) (post : stream) :
  openRun userQuery w0 = (t0, Ok (openai, stream_app pre (SChunk chunk post)), w1) ->
  for_await (stream_of_list pre) (onChunk openai) w1 = (tpre, Ok tt, w2) ->
  event_of_kind "thread.run.requires_action" chunk data ->
  get data "id" = Ok runId ->
  get data "thread_id" = Ok threadId ->
  let '(tdispatch, _, w3) := handleRequiresAction openai data runId threadId w2 in
  let '(tpost, _, _) := for_await post (onChunk openai) w3 in
  yields (trace_of (processQuery userQuery w0)) =
    yields tpre ++ yields tdispatch ++ yields tpost.
Proof.
  intros Hopen Hpre Hev Hid Hth.
  pose proof (handleRequiresAction_returns openai data runId threadId w2) as Hret.
  destruct (handleRequiresAction openai data runId threadId w2)
    as [[tdispatch rd] w3] eqn:Hd.
  cbn in Hret. subst rd.
  destruct (for_await post (onChunk openai) w3) as [[tpost rpost] w4] eqn:Hpost.
  rewrite processQuery_run, Hopen, for_await_app.
  unfold bind at 1. rewrite Hpre. cbn [for_await]. unfold bind.
  rewrite (onChunk_requires_action openai chunk data runId threadId w2 Hev Hid Hth).
  rewrite Hd, Hpost. unfold trace_of. cbn [fst].
  rewrite yields_app, (openRun_yields _ _ _ _ _ Hopen).
  change (Log "Step 5: Read streamed response" None
            :: (tpre ++ tdispatch ++ tpost) ++ done_log rpost)
    with ([Log "Step 5: Read streamed response" None]
            ++ (tpre ++ tdispatch ++ tpost) ++ done_log rpost).
  rewrite !yields_app.
  replace (yields (done_log rpost)) with (@nil value) by now destruct rpost.
  cbn [app]. now rewrite app_nil_r.
Qed.

(** C7. For a text-delta event, in the outer stream and in the resumed
    stream alike, the fragment yielded is the text value of the first
    content block of the delta payload, and the empty string when there
    is no such text value. *)
Theorem text_delta_fragment (openai : OpenAI) (chunk delta : value)
    (text : option string) (w : world) :
  text_delta_event chunk delta ->
  delta_payload_text delta = Some text ->
  let fragment :=
    match text with
    | Some s => VString s
    | None => VString EmptyString
    end in
  yields (trace_of (onChunk openai chunk w)) = [fragment] /\
  yields (trace_of (onToolOutputChunk chunk w)) = [fragment].
Proof.
  intros Hev Htext.
  destruct (delta_text_spec delta text Htext) as [Hd Ht].
  rewrite (onChunk_text_delta openai chunk delta w Hev).
  rewrite (onToolOutputChunk_text_delta chunk delta w Hev).
  rewrite Ht, Hd. now destruct text.
Qed.

(** C9. A text-delta event whose payload has no delta (or a falsy one)
    is skipped: nothing is yielded and nothing else happens, in the outer
    loop and in the loop over the resumed stream. *)
Theorem text_delta_without_delta_skipped (openai : OpenAI) (chunk delta : value)
    (w : world) :
  text_delta_event chunk delta ->
  truthy delta = false ->
  onChunk openai chunk w = ([], Ok tt, w) /\
  onToolOutputChunk chunk w = ([], Ok tt, w).
Proof.
  intros Hev Hf.
  rewrite (onChunk_text_delta openai chunk delta w Hev).
  rewrite (onToolOutputChunk_text_delta chunk delta w Hev).
  now rewrite Hf.
Qed.

(** *** Tool outputs *)

Lemma toolOutput_pass (toolCall name : value) (w : world) :
  tool_name toolCall = Ok name ->
  is_string name "getStockPrice" = false ->
  toolOutput toolCall w = ([], Ok toolCall, w).
Proof.
  unfold tool_name, toolOutput. intros Hn Hk.
  destruct (get toolCall "function") as [fn|e]; [|discriminate].
  now rewrite bind_lift_ok, Hn, bind_lift_ok, Hk.
Qed.

Lemma toolOutput_answers (toolCall output : value) (t : trace) (w w1 : world) :
  toolOutput toolCall w = (t, Ok output, w1) -> answers toolCall output.
Proof.
  unfold toolOutput.
  destruct (get toolCall "function") as [fn|e] eqn:Hfn; [|discriminate].
  rewrite bind_lift_ok.
  destruct (get fn "name") as [name|e] eqn:Hn; [|discriminate].
  rewrite bind_lift_ok.
  assert (Hname : tool_name toolCall = Ok name)
    by (unfold tool_name; now rewrite Hfn).
  destruct (is_string name "getStockPrice") eqn:Hk.
  - destruct (get toolCall "id") as [id|e] eqn:Hid; [|discriminate].
    rewrite !bind_lift_ok.
    destruct (get fn "arguments") as [arguments|e]; [|discriminate].
    rewrite bind_lift_ok.
    destruct (JSON_parse (to_string arguments)) as [parsed|e]; [|discriminate].
    rewrite bind_lift_ok.
    destruct (get parsed "symbol") as [symbol|e]; [|discriminate].
    rewrite bind_lift_ok. unfold bind, getStockPrice, ret.
    destruct (Math_random w) as [r w2]. cbn [append].
    intros [= <- <- <-]. now apply answers_price with (name := name).
  - unfold ret. intros [= <- <- <-]. now apply answers_pass with (name := name).
Qed.

Lemma get_ok (v : value) (k : string) :
  nullish v = false -> exists x, get v k = Ok x.
Proof.
  destruct v; try discriminate; intros _; cbn; try now eexists.
  - destruct (String.eqb k "length"); now eexists.
  - destruct (String.eqb k "length"); now eexists.
Qed.

Lemma toolOutput_dispatchable (toolCall : value) (w : world) :
  dispatchable toolCall = true ->
  exists output w1, toolOutput toolCall w = ([], Ok output, w1).
Proof.
  unfold dispatchable, tool_name, tool_arguments, toolOutput.
  destruct (get toolCall "function") as [fn|e] eqn:Hfn; [|discriminate].
  rewrite bind_lift_ok.
  destruct (get fn "name") as [name|e]; [|discriminate].
  rewrite bind_lift_ok.
  destruct (is_string name "getStockPrice"); [|now eexists _, _].
  destruct (get fn "arguments") as [arguments|e] eqn:Harg; [|discriminate].
  destruct (JSON_parse (to_string arguments)) as [parsed|e] eqn:Hparse;
    [|discriminate].
  intros Hp. apply negb_true_iff in Hp.
  assert (Hc : nullish toolCall = false) by now destruct toolCall.
  destruct (get_ok toolCall "id" Hc) as [id ->].
  destruct (get_ok parsed "symbol" Hp) as [symbol Hsym].
  rewrite !bind_lift_ok, Harg, bind_lift_ok, Hparse, bind_lift_ok, Hsym.
  rewrite bind_lift_ok. unfold bind, getStockPrice, ret.
  destruct (Math_random w) as [r w1]. now eexists _, _.
Qed.

Lemma Promise_all_ok (ps : list (result value)) (outs : list value) :
  Promise_all ps = Ok outs -> ps = map Ok outs.
Proof.
  revert outs. induction ps as [|[v|e] ps IH]; intros outs; cbn.
  - now intros [= <-].
  - destruct (Promise_all ps) as [vs|e]; [|discriminate].
    intros [= <-]. cbn. now rewrite (IH vs).
  - discriminate.
Qed.

Lemma map_async_answers (xs : list value) (outs : list value) (t : trace)
    (w w1 : world) :
  map_async toolOutput xs w = (t, Ok (map Ok outs), w1) ->
  Forall2 answers xs outs.
Proof.
  revert outs t w. induction xs as [|x xs IH]; intros outs t w; cbn [map_async].
  - unfold ret. destruct outs; [constructor|discriminate].
  - unfold bind at 1, settle.
    destruct (toolOutput x w) as [[tx rx] wx] eqn:Hx.
    unfold bind, ret.
    destruct (map_async toolOutput xs wx) as [[ts [ps|e]] ws] eqn:Hs;
      [|discriminate].
    destruct outs as [|o outs]; [discriminate|]. cbn [map].
    intros [= _ -> -> ->]. constructor.
    + now apply toolOutput_answers with (1 := Hx).
    + now apply IH with (1 := Hs).
Qed.

Lemma map_async_dispatchable (xs : list value) (w : world) :
  forallb dispatchable xs = true ->
  exists outs w1, map_async toolOutput xs w = ([], Ok (map Ok outs), w1).
Proof.
  revert w. induction xs as [|x xs IH]; intros w; cbn [forallb map_async].
  - now exists [], w.
  - intros [Hx Hxs]%andb_true_iff.
    destruct (toolOutput_dispatchable x w Hx) as (o & wx & Ho).
    destruct (IH wx Hxs) as (outs & ws & Hs).
    exists (o :: outs), ws. unfold bind at 1, settle. rewrite Ho.
    unfold bind, ret. now rewrite Hs.
Qed.

Lemma Promise_all_map_Ok (outs : list value) : Promise_all (map Ok outs) = Ok outs.
Proof. induction outs as [|o outs IH]; cbn; [reflexivity|now rewrite IH]. Qed.

Lemma awaitToolOutputs_run (run : value) (toolCalls : list value) (w : world) :
  tool_calls_of run = Ok (VArray toolCalls) ->
  awaitToolOutputs run w =
  let '(t, r, w1) := map_async toolOutput toolCalls w in
  match r with
  | Ok promises => (t, Promise_all promises, w1)
  | Throw e => (t, Throw e, w1)
  end.
Proof.
  unfold tool_calls_of, awaitToolOutputs. intros H.
  destruct (get run "required_action") as [ra|e]; [|discriminate].
  rewrite bind_lift_ok.
  destruct (get ra "submit_tool_outputs") as [sto|e]; [|discriminate].
  rewrite bind_lift_ok, H, bind_lift_ok.
  unfold bind, array_map_async, lift.
  destruct (map_async toolOutput toolCalls w) as [[t [ps|e]] w1]; [|reflexivity].
  now rewrite app_nil_r.
Qed.

Lemma awaitToolOutputs_answers (run : value) (toolCalls toolOutputs : list value)
    (t : trace) (w w1 : world) :
  tool_calls_of run = Ok (VArray toolCalls) ->
  awaitToolOutputs run w = (t, Ok toolOutputs, w1) ->
  Forall2 answers toolCalls toolOutputs.
Proof.
  intros Hc. rewrite (awaitToolOutputs_run run toolCalls w Hc).
  destruct (map_async toolOutput toolCalls w) as [[t' [ps|e]] w'] eqn:Hm;
    [|discriminate].
  intros [= -> Hp ->]. apply Promise_all_ok in Hp. subst ps.
  now apply map_async_answers with (1 := Hm).
Qed.

Lemma awaitToolOutputs_dispatchable (run : value) (toolCalls : list value)
    (w : world) :
  tool_calls_of run = Ok (VArray toolCalls) ->
  forallb dispatchable toolCalls = true ->
  exists toolOutputs w1, awaitToolOutputs run w = ([], Ok toolOutputs, w1).
Proof.
  intros Hc Hd. rewrite (awaitToolOutputs_run run toolCalls w Hc).
  destruct (map_async_dispatchable toolCalls w Hd) as (outs & w1 & ->).
  exists outs, w1. now rewrite Promise_all_map_Ok.
Qed.

Lemma submitToolOutputs_calls (openai : OpenAI) (toolOutputs : list value)
    (runId threadId : value) (w : world) :
  calls (trace_of (submitToolOutputs openai toolOutputs runId threadId w)) =
  [SubmitToolOutputsStream threadId runId
     (VObject [("tool_outputs", VArray toolOutputs)])].
Proof.
  pose proof (submitToolOutputs_run openai toolOutputs runId threadId w) as H.
  cbn zeta in H.
  destruct (threads_runs_submitToolOutputsStream _ _ _ _ _) as [s w1].
  destruct (for_await_toolOutput_quiet s w1) as (t & r & Hs & Hq & _).
  rewrite Hs in H. rewrite H. unfold trace_of. cbn [fst].
  change (calls (?a :: ?b :: ?l)) with (calls_of a ++ calls_of b ++ calls l).
  cbn [calls_of app]. rewrite calls_app, Hq. now destruct r.
Qed.

Lemma handleRequiresAction_calls (openai : OpenAI) (run runId threadId : value)
    (w : world) :
  calls (trace_of (handleRequiresAction openai run runId threadId w)) =
  match outcome_of (awaitToolOutputs run w) with
  | Ok toolOutputs =>
      [SubmitToolOutputsStream threadId runId
         (VObject [("tool_outputs", VArray toolOutputs)])]
  | Throw _ => []
  end.
Proof.
  rewrite handleRequiresAction_run.
  destruct (awaitToolOutputs run w) as [[t [outs|e]] w1]; [|reflexivity].
  pose proof (submitToolOutputs_calls openai outs runId threadId w1) as H.
  now destruct (submitToolOutputs openai outs runId threadId w1) as [[t1 r1] w2].
Qed.

Lemma toolOutput_not_dispatchable (toolCall : value) (w : world) :
  dispatchable toolCall = false ->
  exists e, toolOutput toolCall w = ([], Throw e, w).
Proof.
  unfold dispatchable, tool_name, tool_arguments, toolOutput.
  destruct (get toolCall "function") as [fn|e] eqn:Hfn; [|now exists e].
  rewrite bind_lift_ok.
  destruct (get fn "name") as [name|e]; [|now exists e].
  rewrite bind_lift_ok.
  destruct (is_string name "getStockPrice"); [|discriminate].
  assert (Hc : nullish toolCall = false) by now destruct toolCall.
  destruct (get_ok toolCall "id" Hc) as [id ->]. rewrite !bind_lift_ok.
  destruct (get fn "arguments") as [arguments|e]; [|now exists e].
  rewrite bind_lift_ok.
  destruct (JSON_parse (to_string arguments)) as [parsed|e]; [|now exists e].
  rewrite bind_lift_ok. intros Hp. apply negb_false_iff in Hp.
  exists TypeError. now destruct parsed.
Qed.

Lemma map_async_not_dispatchable (xs : list value) (w : world) :
  forallb dispatchable xs = false ->
  exists ps w1 e,
    map_async toolOutput xs w = ([], Ok ps, w1) /\ Promise_all ps = Throw e.
Proof.
  revert w. induction xs as [|x xs IH]; intros w; cbn [forallb map_async];
    [discriminate|].
  unfold bind at 1, settle.
  destruct (dispatchable x) eqn:Hx; cbn [andb]; intros Hxs.
  - destruct (toolOutput_dispatchable x w Hx) as (o & wx & ->).
    destruct (IH wx Hxs) as (ps & w1 & e & Hm & Hp).
    exists (Ok o :: ps), w1, e. unfold bind, ret. rewrite Hm.
    split; [reflexivity|]. cbn. now rewrite Hp.
  - destruct (toolOutput_not_dispatchable x w Hx) as (e & ->).
    destruct (map_async_silent xs w) as (ps & w1 & Hm).
    exists (Throw e :: ps), w1, e. unfold bind, ret. now rewrite Hm.
Qed.

Lemma awaitToolOutputs_not_dispatchable (run : value) (toolCalls : list value)
    (w : world) :
  tool_calls_of run = Ok (VArray toolCalls) ->
  forallb dispatchable toolCalls = false ->
  exists e w1, awaitToolOutputs run w = ([], Throw e, w1).
Proof.
  intros Hc Hd. rewrite (awaitToolOutputs_run run toolCalls w Hc).
  destruct (map_async_not_dispatchable toolCalls w Hd) as (ps & w1 & e & -> & ->).
  now exists e, w1.
Qed.

(** C3, amended. When every requested call can be answered (in
    particular when the arguments of each [getStockPrice] call are the
    JSON text of a value other than null), [handleRequiresAction] sends
    exactly one submission, and its tool outputs match the requested
    calls one for one and in the same order: for a [getStockPrice] call,
    a Tool Output with the identifier of the call and the string of a
    number.  When some call cannot be answered, nothing is submitted. *)
Theorem tool_outputs_match_calls (openai : OpenAI) (run runId threadId : value)
    (toolCalls : list value) (w : world) :
  tool_calls_of run = Ok (VArray toolCalls) ->
  let submitted :=
    calls (trace_of (handleRequiresAction openai run runId threadId w)) in
  if forallb dispatchable toolCalls
  then exists toolOutputs : list value,
         submitted =
           [SubmitToolOutputsStream threadId runId
              (VObject [("tool_outputs", VArray toolOutputs)])] /\
         Forall2 answers toolCalls toolOutputs
  else submitted = [].
Proof.
  intros Hc. cbn zeta. rewrite handleRequiresAction_calls.
  destruct (forallb dispatchable toolCalls) eqn:Hd.
  - destruct (awaitToolOutputs_dispatchable run toolCalls w Hc Hd)
      as (outs & w1 & Ha).
    exists outs. rewrite Ha. split; [reflexivity|].
    now apply awaitToolOutputs_answers with (1 := Hc) (2 := Ha).
  - destruct (awaitToolOutputs_not_dispatchable run toolCalls w Hc Hd)
      as (e & w1 & ->).
    reflexivity.
Qed.

(** C5. A tool call whose declared name is not [getStockPrice] is
    answered by the call itself, unchanged and without any error, and
    that value sits at the position of the call in the outputs. *)
Theorem unknown_tool_passes_through (toolCall name : value) (w : world) :
  tool_name toolCall = Ok name ->
  is_string name "getStockPrice" = false ->
  toolOutput toolCall w = ([], Ok toolCall, w) /\
  forall (run : value) (toolCalls toolOutputs : list value) (i : nat)
         (t : trace) (w0 w1 : world),
    tool_calls_of run = Ok (VArray toolCalls) ->
    nth_error toolCalls i = Some toolCall ->
    awaitToolOutputs run w0 = (t, Ok toolOutputs, w1) ->
    nth_error toolOutputs i = Some toolCall.
Proof.
  intros Hn Hk. split; [now apply toolOutput_pass with (name := name)|].
  intros run toolCalls toolOutputs i t w0 w1 Hc Hi Ha.
  pose proof (awaitToolOutputs_answers _ _ _ _ _ _ Hc Ha) as HF.
  clear Hc Ha. revert i Hi.
  induction HF as [|x o xs os Hxo _ IH]; intros [|i] Hi; try discriminate.
  - injection Hi as ->. cbn. f_equal.
    destruct Hxo as [name' id n Hn' Hk' _|name' _ _]; [|reflexivity].
    rewrite Hn in Hn'. injection Hn' as <-. congruence.
  - now apply IH.
Qed.

(** C10. The price returned by [getStockPrice] does not depend on the
    symbol: from the same state of the random generator, two calls with
    different symbols return the same string and leave the same state.
    So the Tool Output built for a [getStockPrice] call depends on the
    identifier of the call only, not on the symbol in its arguments. *)
Theorem getStockPrice_ignores_symbol (symbol1 symbol2 : value) (w : world) :
  getStockPrice symbol1 w = getStockPrice symbol2 w /\
  forall toolCall1 toolCall2 : value,
    tool_name toolCall1 = Ok (VString "getStockPrice") ->
    tool_name toolCall2 = Ok (VString "getStockPrice") ->
    get toolCall1 "id" = get toolCall2 "id" ->
    dispatchable toolCall1 = true ->
    dispatchable toolCall2 = true ->
    toolOutput toolCall1 w = toolOutput toolCall2 w.
Proof.
  split; [reflexivity|].
  assert (H : forall toolCall,
             tool_name toolCall = Ok (VString "getStockPrice") ->
             dispatchable toolCall = true ->
             exists id, get toolCall "id" = Ok id /\
               toolOutput toolCall w =
                 (id <- lift (get toolCall "id") ;;
                  output <- getStockPrice VUndefined ;;
                  ret (VObject [("tool_call_id", id); ("output", output)])) w).
  { intros toolCall. unfold dispatchable, tool_name, tool_arguments, toolOutput.
    destruct (get toolCall "function") as [fn|e] eqn:Hfn; [|discriminate].
    intros Hn. rewrite Hn, bind_lift_ok, Hn, bind_lift_ok.
    cbn [is_string String.eqb Ascii.eqb Bool.eqb].
    destruct (get fn "arguments") as [arguments|e] eqn:Harg; [|discriminate].
    destruct (JSON_parse (to_string arguments)) as [parsed|e] eqn:Hparse;
      [|discriminate].
    intros Hp. apply negb_true_iff in Hp.
    assert (Hc : nullish toolCall = false) by now destruct toolCall.
    destruct (get_ok toolCall "id" Hc) as [id Hid].
    destruct (get_ok parsed "symbol" Hp) as [symbol Hsym].
    exists id. split; [exact Hid|].
    rewrite Hid, !bind_lift_ok, Harg, bind_lift_ok, Hparse, bind_lift_ok, Hsym.
    now rewrite bind_lift_ok. }
  intros toolCall1 toolCall2 Hn1 Hn2 Hid Hd1 Hd2.
  destruct (H toolCall1 Hn1 Hd1) as (id1 & _ & ->).
  destruct (H toolCall2 Hn2 Hd2) as (id2 & _ & ->).
  now rewrite Hid.
Qed.

(** *** Failures *)

(** C4, amended. When a dispatch fails, while the tool outputs are
    computed (malformed arguments included) or while the resumed stream
    is read, the error is logged as the last effect of the dispatch, so
    that no fragment of the dispatch follows it, and nothing is raised:
    the dispatch returns normally and [processQuery] goes on reading the
    outer stream, whose later events still yield their fragments. *)
Theorem dispatch_failure_is_swallowed (openai : OpenAI)
    (chunk data runId threadId : value) (post : stream) (e : error) (w : world) :
  event_of_kind "thread.run.requires_action" chunk data ->
  get data "id" = Ok runId ->
  get data "thread_id" = Ok threadId ->
  dispatch_outcome openai data runId threadId w = Throw e ->
  exists (t : trace) (msg : string) (w1 : world),
    handleRequiresAction openai data runId threadId w =
      (t ++ [LogError msg e], Ok tt, w1) /\
    logged_errors t = [] /\
    for_await (SChunk chunk post) (onChunk openai) w =
      let '(tpost, r, w2) := for_await post (onChunk openai) w1 in
      ((t ++ [LogError msg e]) ++ tpost, r, w2).
Proof.
  intros Hev Hid Hth Hfail.
  assert (Hd : exists t msg w1,
             handleRequiresAction openai data runId threadId w =
               (t ++ [LogError msg e], Ok tt, w1) /\ logged_errors t = []).
  { rewrite handleRequiresAction_run. unfold dispatch_outcome in Hfail.
    destruct (awaitToolOutputs data w) as [[ta [outs|e']] wa].
    - pose proof (submitToolOutputs_run openai outs runId threadId wa) as H.
      cbn zeta in H, Hfail.
      destruct (threads_runs_submitToolOutputsStream _ _ _ _ _) as [s ws].
      destruct (for_await_toolOutput_quiet s ws) as (tr & r & Hs & _ & Hq).
      rewrite Hs in H, Hfail. cbn in Hfail. subst r. rewrite H.
      exists (Log "Handle Function Calling" None
                :: Log "Call Tool output and stream the response" None
                :: Call (SubmitToolOutputsStream threadId runId
                           (VObject [("tool_outputs", VArray outs)]))
                :: tr),
        "Error submitting tool outputs:", ws.
      split; [reflexivity|]. exact Hq.
    - injection Hfail as ->.
      now exists [Log "Handle Function Calling" None],
        "Error processing required action:", wa. }
  destruct Hd as (t & msg & w1 & Hd & Hq).
  exists t, msg, w1. split; [exact Hd|]. split; [exact Hq|].
  cbn [for_await]. unfold bind.
  rewrite (onChunk_requires_action openai chunk data runId threadId w Hev Hid Hth).
  now rewrite Hd.
Qed.

(** *** The resumed stream *)

Lemma onToolOutputChunk_other (chunk : value) (w : world) :
  nullish chunk = false ->
  is_text_delta chunk = false ->
  onToolOutputChunk chunk w = ([], Ok tt, w).
Proof.
  intros Hn Hk. unfold is_text_delta in Hk. unfold onToolOutputChunk.
  destruct (get_ok chunk "event" Hn) as [event He].
  rewrite He in Hk. now rewrite He, bind_lift_ok, Hk.
Qed.

Lemma for_await_filter (s : stream) (w : world) :
  stream_forallb (fun chunk => negb (nullish chunk)) s = true ->
  for_await s onToolOutputChunk w =
  for_await (stream_filter is_text_delta s) onToolOutputChunk w.
Proof.
  revert w. induction s as [| |chunk rest IH]; intros w; try reflexivity.
  cbn [stream_forallb stream_filter].
  intros [Hn Hrest]%andb_true_iff. apply negb_true_iff in Hn.
  destruct (is_text_delta chunk) eqn:Hk; cbn [for_await].
  - apply bind_ext. intros _ w1. now apply IH.
  - unfold bind. rewrite (onToolOutputChunk_other chunk w Hn Hk).
    rewrite <- (IH w Hrest).
    now destruct (for_await rest onToolOutputChunk w) as [[t r] w1].
Qed.

(** C6. Whatever the resumed stream delivers, [submitToolOutputs] sends
    one request and behaves as if the stream held its text-delta events
    only: every other event, a requires-action event included, is
    dropped without any effect, so no second dispatch is started. *)
Theorem resumed_stream_single_hop (openai : OpenAI) (toolOutputs : list value)
    (runId threadId : value) (resumed : stream) (w w1 : world) :
  let body := VObject [("tool_outputs", VArray toolOutputs)] in
  threads_runs_submitToolOutputsStream openai threadId runId body w = (resumed, w1) ->
  stream_forallb (fun chunk => negb (nullish chunk)) resumed = true ->
  let '(t, r, w2) :=
    for_await (stream_filter is_text_delta resumed) onToolOutputChunk w1 in
  submitToolOutputs openai toolOutputs runId threadId w =
    (Log "Call Tool output and stream the response" None
       :: Call (SubmitToolOutputsStream threadId runId body)
       :: t ++ failure_log "Error submitting tool outputs:" r,
     Ok tt, w2) /\
  calls (trace_of (submitToolOutputs openai toolOutputs runId threadId w)) =
    [SubmitToolOutputsStream threadId runId body].
Proof.
  cbn zeta. intros Hs Hev.
  pose proof (submitToolOutputs_run openai toolOutputs runId threadId w) as H.
  cbn zeta in H. rewrite Hs in H.
  rewrite (for_await_filter resumed w1 Hev) in H.
  destruct (for_await (stream_filter is_text_delta resumed) onToolOutputChunk w1)
    as [[t r] w2].
  split; [exact H|]. apply submitToolOutputs_calls.
Qed.

(** *** The assistant *)

Lemma onChunk_calls (openai : OpenAI) (chunk : value) (w : world) :
  filter is_assistant_request (calls (trace_of (onChunk openai chunk w))) = [].
Proof.
  unfold onChunk.
  destruct (get chunk "event") as [event|e]; [rewrite bind_lift_ok|reflexivity].
  destruct (get chunk "data") as [data|e]; [rewrite bind_lift_ok|reflexivity].
  destruct (is_string event "thread.message.delta").
  - destruct (get data "delta") as [delta|e]; [rewrite bind_lift_ok|reflexivity].
    destruct (truthy delta); [|reflexivity].
    destruct (delta_text delta) as [value|e]; [rewrite bind_lift_ok|reflexivity].
    reflexivity.
  - destruct (is_string event "thread.run.requires_action"); [|reflexivity].
    destruct (get data "id") as [runId|e]; [rewrite bind_lift_ok|reflexivity].
    destruct (get data "thread_id") as [threadId|e];
      [rewrite bind_lift_ok|reflexivity].
    rewrite handleRequiresAction_calls.
    now destruct (outcome_of (awaitToolOutputs data w)).
Qed.

Lemma for_await_onChunk_calls (openai : OpenAI) (s : stream) (w : world) :
  filter is_assistant_request
    (calls (trace_of (for_await s (onChunk openai) w))) = [].
Proof.
  revert w. induction s as [| |chunk rest IH]; intros w; try reflexivity.
  cbn [for_await]. unfold bind.
  pose proof (onChunk_calls openai chunk w) as Hc.
  destruct (onChunk openai chunk w) as [[t1 [[]|e]] w1]; [|exact Hc].
  specialize (IH w1).
  destruct (for_await rest (onChunk openai) w1) as [[t2 r2] w2].
  unfold trace_of in *. cbn [fst] in *.
  now rewrite calls_app, filter_app, Hc, IH.
Qed.

(** C8. When an assistant identifier is configured, the run fetches
    that assistant with [retrieve] and creates none; otherwise it creates
    one from [assistantDefinition]: the requests about assistants made
    during a run are exactly that one request. *)
Theorem assistant_resolution (userQuery : string) (w : world) :
  filter is_assistant_request (calls (trace_of (processQuery userQuery w))) =
  [ match configured_assistant with
    | Some id => AssistantsRetrieve (VString id)
    | None => AssistantsCreate assistantDefinition
    end ].
Proof.
  assert (Hfirst :
    (if truthy (env_value ASSISTANT_ID)
     then AssistantsRetrieve (env_value ASSISTANT_ID)
     else AssistantsCreate assistantDefinition) =
    match configured_assistant with
    | Some id => AssistantsRetrieve (VString id)
    | None => AssistantsCreate assistantDefinition
    end).
  { unfold configured_assistant. destruct ASSISTANT_ID as [id|]; [|reflexivity].
    cbn. now destruct (String.eqb id EmptyString). }
  destruct (openRun_trace userQuery w) as (_ & _ & rest & Hcalls & Hrest).
  rewrite Hfirst in Hcalls.
  assert (Hnone : filter is_assistant_request rest = []).
  { clear -Hrest. induction rest as [|r rest IH]; [reflexivity|].
    cbn in *. apply orb_false_iff in Hrest as [-> Hrest]. now apply IH. }
  rewrite processQuery_run.
  destruct (openRun userQuery w) as [[t0 [[openai run]|e]] w1];
    unfold trace_of in *; cbn [fst] in *.
  - pose proof (for_await_onChunk_calls openai run w1) as Hloop.
    destruct (for_await run (onChunk openai) w1) as [[t r] w2].
    unfold trace_of in Hloop. cbn [fst] in *.
    rewrite calls_app, Hcalls.
    change (calls (?a :: ?l)) with (calls_of a ++ calls l).
    rewrite calls_app. cbn [calls_of app].
    replace (calls (done_log r)) with (@nil request) by now destruct r.
    rewrite app_nil_r.
    destruct configured_assistant; cbn [filter is_assistant_request];
      now rewrite filter_app, Hnone, Hloop.
  - rewrite Hcalls. destruct configured_assistant; cbn; now rewrite Hnone.
Qed.

End Properties.

(** ** The properties at work on the examples *)

Lemma processQuery_text_deltas_witness :
  map event_text Example.text_chunks = map Some ["Hel"; EmptyString; "lo"] /\
  exists (frags : list string) (t : trace),
    @processQuery Example.text_host "What is AAPL trading at?" [] =
      (t ++ [Log "Done!" None], Ok tt, []) /\
    yields t = map VString frags /\
    String.concat EmptyString frags = "Hello".
Proof.
  split; [reflexivity|].
  refine (@processQuery_text_deltas Example.text_host
            "What is AAPL trading at?" [] [] _ _ Example.text_chunks
            ["Hel"; EmptyString; "lo"] _ _); reflexivity.
Defined.

Lemma dispatch_fragments_contiguous_witness :
  yields (trace_of (@processQuery Example.price_host "What is AAPL trading at?"
                      [Example.half])) =
  [VString "A"] ++ [VString "The price"; VString " is 500"] ++ [VString "Z"].
Proof.
  refine (@dispatch_fragments_contiguous Example.price_host
            "What is AAPL trading at?" [Example.half] [Example.half] [Example.half]
            (trace_of (@openRun Example.price_host "What is AAPL trading at?"
                         [Example.half]))
            (trace_of (@onChunk Example.price_host (@AzureOpenAI Example.price_host)
                         (Example.text_delta "A") [Example.half]))
            (@AzureOpenAI Example.price_host) [Example.text_delta "A"]
            (Example.requires_action [Example.price_call; Example.weather_call])
            (Example.run_payload [Example.price_call; Example.weather_call])
            (VString "run_1") (VString "thread_1")
            (SChunk (Example.text_delta "Z") SEnd) _ _ _ _ _);
    try reflexivity.
  exists (VString "thread.run.requires_action"). repeat split.
Defined.

Lemma tool_outputs_match_calls_witness :
  tool_calls_of (Example.run_payload [Example.price_call]) =
    Ok (VArray [Example.price_call]) /\
  exists toolOutputs : list value,
    calls (trace_of (@handleRequiresAction Example.price_host
                       (@AzureOpenAI Example.price_host)
                       (Example.run_payload [Example.price_call])
                       (VString "run_1") (VString "thread_1") [Example.half])) =
      [SubmitToolOutputsStream (VString "thread_1") (VString "run_1")
         (VObject [("tool_outputs", VArray toolOutputs)])] /\
    Forall2 (@answers Example.price_host) [Example.price_call] toolOutputs.
Proof.
  split; [reflexivity|].
  exact (@tool_outputs_match_calls Example.price_host
           (@AzureOpenAI Example.price_host)
           (Example.run_payload [Example.price_call])
           (VString "run_1") (VString "thread_1") [Example.price_call]
           [Example.half] eq_refl).
Defined.

(** C3 as stated fails: one [getStockPrice] call whose arguments are not
    a JSON text gets no Tool Output at all, nothing is submitted. *)
Lemma malformed_arguments_nothing_submitted :
  tool_calls_of (Example.run_payload [Example.malformed_call]) =
    Ok (VArray [Example.malformed_call]) /\
  tool_name Example.malformed_call = Ok (VString "getStockPrice") /\
  calls (trace_of (@handleRequiresAction Example.malformed_host
                     (@AzureOpenAI Example.malformed_host)
                     (Example.run_payload [Example.malformed_call])
                     (VString "run_1") (VString "thread_1") [Example.half])) = [].
Proof. repeat split. Qed.

Lemma dispatch_failure_is_swallowed_witness :
  @dispatch_outcome Example.malformed_host (@AzureOpenAI Example.malformed_host)
    (Example.run_payload [Example.malformed_call])
    (VString "run_1") (VString "thread_1") [Example.half] = Throw SyntaxError /\
  exists (t : trace) (msg : string) (w1 : list number),
    @handleRequiresAction Example.malformed_host (@AzureOpenAI Example.malformed_host)
      (Example.run_payload [Example.malformed_call])
      (VString "run_1") (VString "thread_1") [Example.half] =
      (t ++ [LogError msg SyntaxError], Ok tt, w1) /\
    logged_errors t = [] /\
    @for_await Example.malformed_host
      (SChunk (Example.requires_action [Example.malformed_call])
         (SChunk (Example.text_delta "Z") SEnd))
      (@onChunk Example.malformed_host (@AzureOpenAI Example.malformed_host))
      [Example.half] =
      let '(tpost, r, w2) :=
        @for_await Example.malformed_host (SChunk (Example.text_delta "Z") SEnd)
          (@onChunk Example.malformed_host (@AzureOpenAI Example.malformed_host))
          w1 in
      ((t ++ [LogError msg SyntaxError]) ++ tpost, r, w2).
Proof.
  split; [reflexivity|].
  apply (@dispatch_failure_is_swallowed Example.malformed_host
           (@AzureOpenAI Example.malformed_host)
           (Example.requires_action [Example.malformed_call])
           (Example.run_payload [Example.malformed_call])
           (VString "run_1") (VString "thread_1")
           (SChunk (Example.text_delta "Z") SEnd) SyntaxError [Example.half]);
    try reflexivity.
  exists (VString "thread.run.requires_action"). repeat split.
Defined.

(** C4 as stated fails: after the dispatch has failed and the error has
    been logged, the fragment of the next outer event is still yielded. *)
Lemma fragment_after_failed_dispatch :
  exists t1 t2 : trace,
    @processQuery Example.malformed_host "What is AAPL trading at?" [Example.half] =
      (t1 ++ LogError "Error processing required action:" SyntaxError :: t2,
       Ok tt, [Example.half]) /\
    yields t1 = [VString "A"] /\
    yields t2 = [VString "Z"].
Proof.
  exists (firstn 14 (trace_of (@processQuery Example.malformed_host
                                 "What is AAPL trading at?" [Example.half]))),
    (skipn 15 (trace_of (@processQuery Example.malformed_host
                           "What is AAPL trading at?" [Example.half]))).
  repeat split.
Qed.

Lemma unknown_tool_passes_through_witness :
  @toolOutput Example.price_host Example.weather_call [Example.half] =
    ([], Ok Example.weather_call, [Example.half]) /\
  nth_error
    (match outcome_of (@awaitToolOutputs Example.price_host
                         (Example.run_payload [Example.price_call; Example.weather_call])
                         [Example.half]) with
     | Ok toolOutputs => toolOutputs
     | Throw _ => []
     end) 1 = Some Example.weather_call.
Proof.
  destruct (@unknown_tool_passes_through Example.price_host Example.weather_call
              (VString "getWeather") [Example.half] eq_refl eq_refl) as [H1 H2].
  split; [exact H1|].
  apply (H2 (Example.run_payload [Example.price_call; Example.weather_call])
            [Example.price_call; Example.weather_call] _ 1%nat [] [Example.half] []);
    reflexivity.
Defined.

Lemma resumed_stream_single_hop_witness :
  let toolOutputs :=
    [VObject [("tool_call_id", VString "call_1"); ("output", VString "500")]] in
  let body := VObject [("tool_outputs", VArray toolOutputs)] in
  @submitToolOutputs Example.price_host (@AzureOpenAI Example.price_host)
    toolOutputs (VString "run_1") (VString "thread_1") [] =
    ([Log "Call Tool output and stream the response" None;
      Call (SubmitToolOutputsStream (VString "thread_1") (VString "run_1") body);
      Yield (VString "The price");
      Log "Processed thread.message.delta (tool output)"
        (Some (VObject [("value", VString "The price")]));
      Yield (VString " is 500");
      Log "Processed thread.message.delta (tool output)"
        (Some (VObject [("value", VString " is 500")]))],
     Ok tt, []) /\
  calls (trace_of (@submitToolOutputs Example.price_host
                     (@AzureOpenAI Example.price_host)
                     toolOutputs (VString "run_1") (VString "thread_1") [])) =
    [SubmitToolOutputsStream (VString "thread_1") (VString "run_1") body].
Proof.
  refine (@resumed_stream_single_hop Example.price_host
            (@AzureOpenAI Example.price_host)
            [VObject [("tool_call_id", VString "call_1"); ("output", VString "500")]]
            (VString "run_1") (VString "thread_1")
            (stream_of_list Example.resumed_chunks) [] [] _ _); reflexivity.
Defined.

Lemma text_delta_fragment_witness :
  (yields (trace_of (@onChunk Example.text_host (@AzureOpenAI Example.text_host)
                       (Example.text_delta "Hel") [])) = [VString "Hel"] /\
   yields (trace_of (@onToolOutputChunk Example.text_host
                       (Example.text_delta "Hel") [])) = [VString "Hel"]) /\
  (yields (trace_of (@onChunk Example.text_host (@AzureOpenAI Example.text_host)
                       Example.image_event [])) = [VString EmptyString] /\
   yields (trace_of (@onToolOutputChunk Example.text_host
                       Example.image_event [])) = [VString EmptyString]).
Proof.
  split.
  - refine (@text_delta_fragment Example.text_host (@AzureOpenAI Example.text_host)
              (Example.text_delta "Hel") (Example.delta_of "Hel") (Some "Hel") [] _ _);
      [|reflexivity].
    eexists. split; [exists (VString "thread.message.delta"); repeat split|].
    reflexivity.
  - refine (@text_delta_fragment Example.text_host (@AzureOpenAI Example.text_host)
              Example.image_event Example.image_delta None [] _ _);
      [|reflexivity].
    eexists. split; [exists (VString "thread.message.delta"); repeat split|].
    reflexivity.
Defined.

Lemma text_delta_without_delta_skipped_witness :
  @onChunk Example.text_host (@AzureOpenAI Example.text_host)
    Example.empty_delta [] = ([], Ok tt, []) /\
  @onToolOutputChunk Example.text_host Example.empty_delta [] = ([], Ok tt, []).
Proof.
  apply (@text_delta_without_delta_skipped Example.text_host
           (@AzureOpenAI Example.text_host) Example.empty_delta VUndefined []);
    [|reflexivity].
  eexists. split; [exists (VString "thread.message.delta"); repeat split|].
  reflexivity.
Defined.

Lemma getStockPrice_ignores_symbol_witness :
  @getStockPrice Example.price_host (VString "AAPL") [Example.half] =
    @getStockPrice Example.price_host (VString "MSFT") [Example.half] /\
  @toolOutput Example.price_host Example.price_call [Example.half] =
    @toolOutput Example.price_host
      (Example.function_call "call_1" "getStockPrice"
         (Example.symbol_arguments "MSFT")) [Example.half].
Proof.
  destruct (@getStockPrice_ignores_symbol Example.price_host
              (VString "AAPL") (VString "MSFT") [Example.half]) as [H1 H2].
  split; [exact H1|]. apply H2; reflexivity.
Defined.

(** The reference host on a few inputs. *)
Example Number_toString_examples :
  Number.toString Example.half = "0.5" /\
  Number.toString (number_mul Example.half (number_of_Z 1000)) = "500" /\
  Number.toString
    (number_mul (Number.of_decimal false 1 (-1)) (number_of_Z 3)) =
    "0.30000000000000004" /\
  Number.toString (Number.of_decimal false 1 21) = "1e+21" /\
  Number.toString (Number.of_decimal true 25 (-8)) = "-2.5e-7".
Proof. repeat split; vm_compute; reflexivity. Qed.

Example JSON_parse_examples :
  JSON.parse (Example.symbol_arguments "AAPL") =
    Ok (VObject [("symbol", VString "AAPL")]) /\
  JSON.parse "[true, null, -0]" = Ok (VArray [VBool true; VNull; VNumber (S754_zero true)]) /\
  JSON.parse "null" = Ok VNull /\
  JSON.parse "{" = Throw SyntaxError /\
  JSON.parse "AAPL" = Throw SyntaxError /\
  JSON.parse EmptyString = Throw SyntaxError.
Proof. repeat split; vm_compute; reflexivity. Qed.

(** One price call and one unknown call: what is submitted. *)
Example price_dispatch_submission :
  calls (trace_of (@handleRequiresAction Example.price_host
                     (@AzureOpenAI Example.price_host)
                     (Example.run_payload [Example.price_call; Example.weather_call])
                     (VString "run_1") (VString "thread_1") [Example.half])) =
  [SubmitToolOutputsStream (VString "thread_1") (VString "run_1")
     (VObject
        [("tool_outputs",
           VArray
             [VObject [("tool_call_id", VString "call_1"); ("output", VString "500")];
              Example.weather_call])])].
Proof. vm_compute. reflexivity. Qed.

(** [null] is a JSON text, but reading [symbol] from it raises. *)
Example null_arguments_dispatch :
  @handleRequiresAction Example.price_host (@AzureOpenAI Example.price_host)
    (Example.run_payload [Example.function_call "call_1" "getStockPrice" "null"])
    (VString "run_1") (VString "thread_1") [Example.half] =
  ([Log "Handle Function Calling" None;
    LogError "Error processing required action:" TypeError],
   Ok tt, [Example.half]).
Proof. vm_compute. reflexivity. Qed.

(** ** Further properties of the code *)

Section Coverage.
Context {host : Host}.

Local Abbreviation M := (M world).
Local Abbreviation OpenAI := (OpenAI world).

(** X1. When the run stream breaks with an error after some chunks, the
    fragments of those chunks are yielded, then [processQuery] raises that
    error to its consumer: the error is not logged and the final log line
    is not written. *)
Theorem processQuery_upstream_failure (userQuery : string) (w0 w1 w2 : world)
    (t0 t : trace) (openai : OpenAI) (chunks : list value) (e : error) :
  openRun userQuery w0 = (t0, Ok (openai, stream_app chunks (SFail e)), w1) ->
  for_await (stream_of_list chunks) (onChunk openai) w1 = (t, Ok tt, w2) ->
  processQuery userQuery w0 =
    (t0 ++ Log "Step 5: Read streamed response" None :: t, Throw e, w2) /\
  yields (trace_of (processQuery userQuery w0)) = yields t.
Proof.
  intros Hopen Hloop.
  assert (H : processQuery userQuery w0 =
              (t0 ++ Log "Step 5: Read streamed response" None :: t, Throw e, w2)).
  { rewrite processQuery_run, Hopen, for_await_app. unfold bind at 1.
    rewrite Hloop. cbn [for_await]. unfold lift. cbn [done_log].
    now rewrite !app_nil_r. }
  split; [exact H|]. rewrite H. unfold trace_of. cbn [fst].
  rewrite yields_app, (openRun_yields _ _ _ _ _ Hopen).
  reflexivity.
Qed.

Lemma submitToolOutputs_errors (openai : OpenAI) (toolOutputs : list value)
    (runId threadId : value) (w : world) :
  let body := VObject [("tool_outputs", VArray toolOutputs)] in
  let '(s, w1) := threads_runs_submitToolOutputsStream openai threadId runId body w in
  submitToolOutputs openai toolOutputs runId threadId w =
    (trace_of (submitToolOutputs openai toolOutputs runId threadId w), Ok tt,
     snd (for_await s onToolOutputChunk w1)) /\
  logged_errors (trace_of (submitToolOutputs openai toolOutputs runId threadId w)) =
    match outcome_of (for_await s onToolOutputChunk w1) with
    | Ok _ => []
    | Throw e => [("Error submitting tool outputs:", e)]
    end.
Proof.
  cbn zeta.
  pose proof (submitToolOutputs_run openai toolOutputs runId threadId w) as H.
  cbn zeta in H.
  destruct (threads_runs_submitToolOutputsStream _ _ _ _ _) as [s w1].
  destruct (for_await_toolOutput_quiet s w1) as (t & r & Hs & _ & Hq).
  rewrite Hs in H |- *. rewrite H. unfold trace_of, outcome_of. cbn [fst snd].
  split; [reflexivity|].
  change (logged_errors (?a :: ?b :: ?l))
    with (errors_of a ++ errors_of b ++ logged_errors l).
  cbn [errors_of app]. rewrite logged_errors_app, Hq. now destruct r.
Qed.

(** X2. A dispatch returns normally whatever happens in it, and it logs
    an error exactly when it fails: nothing when the outputs are computed
    and the resumed stream is read to its end, the one exception met
    otherwise. *)
Theorem dispatch_never_raises (openai : OpenAI) (run runId threadId : value)
    (w : world) :
  outcome_of (handleRequiresAction openai run runId threadId w) = Ok tt /\
  map snd (logged_errors (trace_of (handleRequiresAction openai run runId threadId w))) =
    match dispatch_outcome openai run runId threadId w with
    | Ok _ => []
    | Throw e => [e]
    end.
Proof.
  split; [apply handleRequiresAction_returns|].
  rewrite handleRequiresAction_run. unfold dispatch_outcome.
  destruct (awaitToolOutputs run w) as [[ta [outs|e]] wa]; [|reflexivity].
  pose proof (submitToolOutputs_errors openai outs runId threadId wa) as H.
  cbn zeta in H.
  destruct (threads_runs_submitToolOutputsStream _ _ _ _ _) as [s ws].
  destruct H as [Hrun Herr]. rewrite Hrun. unfold trace_of at 1. cbn [fst].
  change (logged_errors (?a :: ?l)) with (errors_of a ++ logged_errors l).
  cbn [errors_of app]. rewrite Herr.
  now destruct (outcome_of (for_await s onToolOutputChunk ws)).
Qed.

(** X3. When the request for the assistant is rejected, [processQuery]
    raises the rejection at once: nothing is yielded, no thread is
    created, and that request is the only one sent. *)
Theorem assistant_rejection_stops_run (userQuery : string) (w w1 : world)
    (e : error) :
  match configured_assistant with
  | Some id => assistants_retrieve AzureOpenAI (VString id) w
  | None => assistants_create AzureOpenAI assistantDefinition w
  end = (Throw e, w1) ->
  processQuery userQuery w =
    ([Log "Step 0: Connect and acquire an OpenAI instance" None;
      Log "Using Azure OpenAI (w/ Microsoft Entra ID) ..." None;
      Log "Step 1: Retrieve or Create an Assistant" None;
      Call match configured_assistant with
           | Some id => AssistantsRetrieve (VString id)
           | None => AssistantsCreate assistantDefinition
           end],
     Throw e, w1).
Proof.
  intros H. rewrite processQuery_run.
  unfold openRun, initAzureOpenAI, context_log, request_value.
  rewrite bind_emit. rewrite bind_assoc, bind_emit, bind_ret, bind_emit.
  unfold bind at 1. unfold configured_assistant in *.
  destruct ASSISTANT_ID as [id|]; cbn [env_value truthy].
  - destruct (String.eqb id EmptyString); cbn [negb]; now rewrite H.
  - now rewrite H.
Qed.

Lemma get_data_ok (chunk : value) :
  nullish chunk = false -> exists event data,
    get chunk "event" = Ok event /\ get chunk "data" = Ok data.
Proof.
  intros Hn. destruct (get_ok chunk "event" Hn) as [event He].
  destruct (get_ok chunk "data" Hn) as [data Hd]. now exists event, data.
Qed.

Lemma onChunk_other (openai : OpenAI) (chunk : value) (w : world) :
  nullish chunk = false ->
  is_handled chunk = false ->
  onChunk openai chunk w = ([], Ok tt, w).
Proof.
  intros Hn Hh. destruct (get_data_ok chunk Hn) as (event & data & He & Hd).
  unfold is_handled, is_text_delta, is_requires_action in Hh. rewrite He in Hh.
  apply orb_false_iff in Hh as [H1 H2].
  unfold onChunk. now rewrite He, bind_lift_ok, Hd, bind_lift_ok, H1, H2.
Qed.

(** X4. The outer loop reacts to text-delta and requires-action events
    only: reading a stream gives the same effects, the same outcome and the
    same final state as reading it with every event of another kind
    removed. *)
Theorem outer_loop_ignores_other_events (openai : OpenAI) (s : stream) (w : world) :
  stream_forallb (fun chunk => negb (nullish chunk)) s = true ->
  for_await s (onChunk openai) w =
  for_await (stream_filter is_handled s) (onChunk openai) w.
Proof.
  revert w. induction s as [| |chunk rest IH]; intros w; try reflexivity.
  cbn [stream_forallb stream_filter].
  intros [Hn Hrest]%andb_true_iff. apply negb_true_iff in Hn.
  destruct (is_handled chunk) eqn:Hk; cbn [for_await].
  - apply bind_ext. intros _ w1. now apply IH.
  - unfold bind. rewrite (onChunk_other openai chunk w Hn Hk).
    rewrite <- (IH w Hrest).
    now destruct (for_await rest (onChunk openai) w) as [[t r] w1].
Qed.

Lemma delta_text_no_content (delta content : value) :
  get delta "content" = Ok content ->
  nullish content = true ->
  delta_text delta = Throw TypeError.
Proof.
  intros Hc Hn. unfold delta_text. rewrite Hc. now destruct content.
Qed.

(** X5. A text-delta event whose delta carries no content array makes
    the outer loop raise a TypeError before anything is yielded for it;
    the events that follow are not read. *)
Theorem delta_without_content_raises (openai : OpenAI)
    (chunk delta content : value) (rest : stream) (w : world) :
  text_delta_event chunk delta ->
  truthy delta = true ->
  get delta "content" = Ok content ->
  nullish content = true ->
  for_await (SChunk chunk rest) (onChunk openai) w = ([], Throw TypeError, w).
Proof.
  intros Hev Ht Hc Hn. cbn [for_await]. unfold bind.
  rewrite (onChunk_text_delta openai chunk delta w Hev), Ht.
  now rewrite (delta_text_no_content delta content Hc Hn).
Qed.

Lemma onToolOutputChunk_throw (chunk : value) (t : trace) (e : error) (w w1 : world) :
  onToolOutputChunk chunk w = (t, Throw e, w1) -> t = [] /\ w1 = w.
Proof.
  unfold onToolOutputChunk.
  destruct (get chunk "event") as [event|e'];
    [rewrite bind_lift_ok | now intros [= <- _ <-]].
  destruct (is_string event "thread.message.delta"); [|discriminate].
  destruct (get chunk "data") as [data|e'];
    [rewrite bind_lift_ok | now intros [= <- _ <-]].
  destruct (get data "delta") as [delta|e'];
    [rewrite bind_lift_ok | now intros [= <- _ <-]].
  destruct (truthy delta); [|discriminate].
  destruct (delta_text delta) as [value|e'];
    [rewrite bind_lift_ok | now intros [= <- _ <-]].
  discriminate.
Qed.

(** X6. When reading the resumed stream fails on one of its events,
    [submitToolOutputs] keeps the fragments yielded so far, logs the error
    and returns: the rest of the resumed stream is never read, so the
    outcome does not depend on it. *)
Theorem resumed_stream_failure_truncates (openai : OpenAI)
    (toolOutputs : list value) (runId threadId : value)
    (pre : list value) (bad : value) (rest : stream) (e : error)
    (tpre tbad : trace) (w w1 w2 w3 : world) :
  let body := VObject [("tool_outputs", VArray toolOutputs)] in
  threads_runs_submitToolOutputsStream openai threadId runId body w =
    (stream_app pre (SChunk bad rest), w1) ->
  for_await (stream_of_list pre) onToolOutputChunk w1 = (tpre, Ok tt, w2) ->
  onToolOutputChunk bad w2 = (tbad, Throw e, w3) ->
  submitToolOutputs openai toolOutputs runId threadId w =
    (Log "Call Tool output and stream the response" None
       :: Call (SubmitToolOutputsStream threadId runId body)
       :: tpre ++ [LogError "Error submitting tool outputs:" e],
     Ok tt, w2).
Proof.
  cbn zeta. intros Hs Hpre Hbad.
  destruct (onToolOutputChunk_throw _ _ _ _ _ Hbad) as [-> ->].
  pose proof (submitToolOutputs_run openai toolOutputs runId threadId w) as H.
  cbn zeta in H. rewrite Hs, for_await_app in H. unfold bind at 1 in H.
  rewrite Hpre in H. cbn [for_await] in H. unfold bind in H.
  rewrite Hbad in H. rewrite H. cbn [failure_log]. now rewrite app_nil_r.
Qed.

(** X7. A requires-action event whose payload has no tool-call list to
    read: when the data payload itself is missing, the outer loop raises a
    TypeError to the consumer, since the identifiers are read outside the
    [try] block; otherwise the error is caught, logged, nothing is
    submitted and the loop goes on. *)
Theorem requires_action_without_payload (openai : OpenAI)
    (chunk data : value) (e : error) (w : world) :
  event_of_kind "thread.run.requires_action" chunk data ->
  tool_calls_of data = Throw e ->
  onChunk openai chunk w =
    if nullish data then ([], Throw TypeError, w)
    else ([Log "Handle Function Calling" None;
           LogError "Error processing required action:" e], Ok tt, w).
Proof.
  intros Hev Hc. destruct (nullish data) eqn:Hn.
  - destruct Hev as (event & He & Hk & Hd).
    unfold onChunk. rewrite He, bind_lift_ok, Hd, bind_lift_ok.
    rewrite (is_string_neq _ _ "thread.message.delta" Hk) by discriminate.
    rewrite Hk. now destruct data.
  - destruct (get_ok data "id" Hn) as [runId Hid].
    destruct (get_ok data "thread_id" Hn) as [threadId Hth].
    rewrite (onChunk_requires_action openai chunk data runId threadId w Hev Hid Hth).
    rewrite handleRequiresAction_run.
    unfold awaitToolOutputs. unfold tool_calls_of in Hc.
    destruct (get data "required_action") as [ra|e1].
    + rewrite bind_lift_ok.
      destruct (get ra "submit_tool_outputs") as [sto|e2].
      * now rewrite bind_lift_ok, Hc.
      * now injection Hc as ->.
    + now injection Hc as ->.
Qed.

(** *** Fragments *)

Lemma fragments_app (t1 t2 : trace) :
  forallb fragment_ok (yields t1) = true ->
  forallb fragment_ok (yields t2) = true ->
  forallb fragment_ok (yields (t1 ++ t2)) = true.
Proof. intros H1 H2. now rewrite yields_app, forallb_app, H1, H2. Qed.

Lemma delta_text_fragment_ok (delta v : value) :
  delta_text delta = Ok v -> fragment_ok v = true.
Proof.
  unfold delta_text.
  destruct (get delta "content") as [content|e]; [|discriminate].
  destruct (get_index content 0) as [block|e]; [|discriminate].
  intros [= <-]. unfold or_else, fragment_ok.
  destruct (truthy (get_opt (get_opt block "text") "value")) eqn:Ht.
  - now rewrite Ht.
  - apply orb_true_r.
Qed.

Lemma onToolOutputChunk_fragments (chunk : value) (w : world) :
  forallb fragment_ok (yields (trace_of (onToolOutputChunk chunk w))) = true.
Proof.
  unfold onToolOutputChunk.
  destruct (get chunk "event") as [event|e]; [rewrite bind_lift_ok|reflexivity].
  destruct (is_string event "thread.message.delta"); [|reflexivity].
  destruct (get chunk "data") as [data|e]; [rewrite bind_lift_ok|reflexivity].
  destruct (get data "delta") as [delta|e]; [rewrite bind_lift_ok|reflexivity].
  destruct (truthy delta); [|reflexivity].
  destruct (delta_text delta) as [value|e] eqn:Hv; [rewrite bind_lift_ok|reflexivity].
  cbn. now rewrite (delta_text_fragment_ok delta value Hv).
Qed.

Lemma for_await_fragments (body : value -> M unit) (s : stream) (w : world) :
  (forall chunk w', forallb fragment_ok (yields (trace_of (body chunk w'))) = true) ->
  forallb fragment_ok (yields (trace_of (for_await s body w))) = true.
Proof.
  intros Hbody. revert w. induction s as [| |chunk rest IH]; intros w;
    try reflexivity.
  cbn [for_await]. unfold bind. specialize (Hbody chunk w).
  destruct (body chunk w) as [[t1 [[]|e]] w1]; [|exact Hbody].
  specialize (IH w1). destruct (for_await rest body w1) as [[t2 r2] w2].
  now apply fragments_app.
Qed.

Lemma handleRequiresAction_fragments (openai : OpenAI) (run runId threadId : value)
    (w : world) :
  forallb fragment_ok
    (yields (trace_of (handleRequiresAction openai run runId threadId w))) = true.
Proof.
  rewrite handleRequiresAction_run.
  destruct (awaitToolOutputs run w) as [[ta [outs|e]] wa]; [|reflexivity].
  pose proof (submitToolOutputs_run openai outs runId threadId wa) as H.
  cbn zeta in H.
  destruct (threads_runs_submitToolOutputsStream _ _ _ _ _) as [s ws].
  pose proof (for_await_fragments onToolOutputChunk s ws
                onToolOutputChunk_fragments) as Hs.
  destruct (for_await s onToolOutputChunk ws) as [[t r] w2].
  rewrite H. unfold trace_of in *. cbn [fst] in *.
  change (yields (?a :: ?b :: ?c :: ?l))
    with (yielded_of a ++ yielded_of b ++ yielded_of c ++ yields l).
  cbn [yielded_of app]. apply fragments_app; [exact Hs|now destruct r].
Qed.

Lemma onChunk_fragments (openai : OpenAI) (chunk : value) (w : world) :
  forallb fragment_ok (yields (trace_of (onChunk openai chunk w))) = true.
Proof.
  unfold onChunk.
  destruct (get chunk "event") as [event|e]; [rewrite bind_lift_ok|reflexivity].
  destruct (get chunk "data") as [data|e]; [rewrite bind_lift_ok|reflexivity].
  destruct (is_string event "thread.message.delta").
  - destruct (get data "delta") as [delta|e]; [rewrite bind_lift_ok|reflexivity].
    destruct (truthy delta); [|reflexivity].
    destruct (delta_text delta) as [value|e] eqn:Hv;
      [rewrite bind_lift_ok|reflexivity].
    cbn. now rewrite (delta_text_fragment_ok delta value Hv).
  - destruct (is_string event "thread.run.requires_action"); [|reflexivity].
    destruct (get data "id") as [runId|e]; [rewrite bind_lift_ok|reflexivity].
    destruct (get data "thread_id") as [threadId|e];
      [rewrite bind_lift_ok|reflexivity].
    apply handleRequiresAction_fragments.
Qed.

(** X8. Every fragment that [processQuery] yields, from the outer stream
    or from a resumed one, is a truthy value or the empty string: never
    [undefined], [null], [false], zero or NaN, whatever the events
    contain. *)
Theorem fragments_are_never_nullish (userQuery : string) (w : world) :
  forallb fragment_ok (yields (trace_of (processQuery userQuery w))) = true /\
  forall v, In v (yields (trace_of (processQuery userQuery w))) -> nullish v = false.
Proof.
  assert (H : forallb fragment_ok
                (yields (trace_of (processQuery userQuery w))) = true).
  { rewrite processQuery_run.
    destruct (openRun userQuery w) as [[t0 [[openai run]|e]] w1] eqn:Hopen.
    - pose proof (for_await_fragments (onChunk openai) run w1
                    (onChunk_fragments openai)) as Hloop.
      destruct (for_await run (onChunk openai) w1) as [[t r] w2].
      unfold trace_of in *. cbn [fst] in *.
      rewrite yields_app, (openRun_yields _ _ _ _ _ Hopen). cbn [app].
      change (yields (?a :: ?l)) with (yielded_of a ++ yields l).
      cbn [yielded_of app]. apply fragments_app; [exact Hloop|now destruct r].
    - unfold trace_of. cbn [fst]. now rewrite (openRun_yields _ _ _ _ _ Hopen). }
  split; [exact H|]. intros v Hv.
  rewrite forallb_forall in H. specialize (H v Hv).
  destruct v; try reflexivity; discriminate.
Qed.

(** *** Draws *)

Lemma dispatchable_price_call (toolCall : value) :
  is_price_call toolCall = true ->
  dispatchable toolCall = true ->
  exists fn arguments parsed symbol,
    get toolCall "function" = Ok fn /\
    get fn "name" = Ok (VString "getStockPrice") /\
    get toolCall "id" = Ok (get_opt toolCall "id") /\
    get fn "arguments" = Ok arguments /\
    JSON_parse (to_string arguments) = Ok parsed /\
    get parsed "symbol" = Ok symbol.
Proof.
  unfold is_price_call, dispatchable, tool_name, tool_arguments.
  destruct (get toolCall "function") as [fn|e] eqn:Hfn; [|discriminate].
  destruct (get fn "name") as [name|e] eqn:Hname; [|discriminate].
  intros Hk. rewrite Hk.
  destruct (get fn "arguments") as [arguments|e] eqn:Harg; [|discriminate].
  destruct (JSON_parse (to_string arguments)) as [parsed|e] eqn:Hparse;
    [|discriminate].
  intros Hp. apply negb_true_iff in Hp.
  destruct (get_ok parsed "symbol" Hp) as [symbol Hsym].
  exists fn, arguments, parsed, symbol.
  assert (Heq : name = VString "getStockPrice").
  { destruct name; try discriminate. cbn in Hk.
    apply String.eqb_eq in Hk. now subst. }
  subst name. repeat split; trivial.
  unfold get_opt. destruct toolCall; try discriminate Hfn; reflexivity.
Qed.

Lemma toolOutput_price (toolCall : value) (w : world) :
  is_price_call toolCall = true ->
  dispatchable toolCall = true ->
  toolOutput toolCall w =
    let '(r, w1) := Math_random w in
    ([], Ok (price_output (get_opt toolCall "id") r), w1).
Proof.
  intros Hk Hd.
  destruct (dispatchable_price_call toolCall Hk Hd)
    as (fn & arguments & parsed & symbol & Hfn & Hn & Hid & Ha & Hp & Hs).
  unfold toolOutput.
  rewrite Hfn, bind_lift_ok, Hn, bind_lift_ok. cbn [is_string].
  rewrite String.eqb_refl, Hid, !bind_lift_ok, Ha, bind_lift_ok, Hp.
  rewrite bind_lift_ok, Hs, bind_lift_ok.
  unfold bind, getStockPrice, ret, price_output.
  now destruct (Math_random w) as [r w1].
Qed.

Lemma toolOutput_other (toolCall : value) (w : world) :
  is_price_call toolCall = false ->
  dispatchable toolCall = true ->
  toolOutput toolCall w = ([], Ok toolCall, w).
Proof.
  unfold is_price_call, dispatchable. intros Hk Hd.
  destruct (tool_name toolCall) as [name|e] eqn:Hn; [|discriminate].
  now apply toolOutput_pass with (name := name).
Qed.

Lemma map_async_drawn (toolCalls : list value) (w : world) :
  forallb dispatchable toolCalls = true ->
  map_async toolOutput toolCalls w =
    ([], Ok (map Ok (fst (drawn_outputs toolCalls w))),
     snd (drawn_outputs toolCalls w)).
Proof.
  revert w. induction toolCalls as [|x xs IH]; intros w;
    cbn [forallb map_async drawn_outputs]; [reflexivity|].
  intros [Hx Hxs]%andb_true_iff. unfold bind at 1, settle.
  destruct (is_price_call x) eqn:Hk.
  - rewrite (toolOutput_price x w Hk Hx).
    destruct (Math_random w) as [r w1]. unfold bind, ret.
    rewrite (IH w1 Hxs). now destruct (drawn_outputs xs w1) as [outs w2].
  - rewrite (toolOutput_other x w Hk Hx). unfold bind, ret.
    rewrite (IH w Hxs). now destruct (drawn_outputs xs w) as [outs w2].
Qed.

(** X9. The outputs of answerable calls are computed with one random
    draw per [getStockPrice] call, taken in the order of the calls; a call
    passed through takes none.  So two price calls of one payload get two
    successive draws, and the generator is left after the last of them. *)
Theorem tool_outputs_use_successive_draws (run : value) (toolCalls : list value)
    (w : world) :
  tool_calls_of run = Ok (VArray toolCalls) ->
  forallb dispatchable toolCalls = true ->
  awaitToolOutputs run w =
    ([], Ok (fst (drawn_outputs toolCalls w)), snd (drawn_outputs toolCalls w)).
Proof.
  intros Hc Hd. rewrite (awaitToolOutputs_run run toolCalls w Hc).
  rewrite (map_async_drawn toolCalls w Hd). now rewrite Promise_all_map_Ok.
Qed.

Lemma toolOutput_failure (toolCall : value) (t : trace) (e : error)
    (w w1 w' : world) :
  toolOutput toolCall w = (t, Throw e, w1) ->
  toolOutput toolCall w' = ([], Throw e, w').
Proof.
  unfold toolOutput.
  destruct (get toolCall "function") as [fn|e1];
    [rewrite !bind_lift_ok | now intros [= _ ->]].
  destruct (get fn "name") as [name|e1];
    [rewrite !bind_lift_ok | now intros [= _ ->]].
  destruct (is_string name "getStockPrice"); [|discriminate].
  destruct (get toolCall "id") as [id|e1];
    [rewrite !bind_lift_ok | now intros [= _ ->]].
  destruct (get fn "arguments") as [arguments|e1];
    [rewrite !bind_lift_ok | now intros [= _ ->]].
  destruct (JSON_parse (to_string arguments)) as [parsed|e1];
    [rewrite !bind_lift_ok | now intros [= _ ->]].
  destruct (get parsed "symbol") as [symbol|e1];
    [rewrite !bind_lift_ok | now intros [= _ ->]].
  unfold bind, getStockPrice, ret. destruct (Math_random w) as [r w2].
  discriminate.
Qed.

Lemma map_async_first_failure (pre : list value) (toolCall : value)
    (post : list value) (e : error) (w w0 : world) :
  forallb dispatchable pre = true ->
  outcome_of (toolOutput toolCall w0) = Throw e ->
  exists ps w1,
    map_async toolOutput (pre ++ toolCall :: post) w = ([], Ok ps, w1) /\
    Promise_all ps = Throw e.
Proof.
  intros Hpre Hfail. revert w.
  induction pre as [|x pre IH]; intros w; cbn [app map_async].
  - destruct (toolOutput toolCall w0) as [[t0 r0] w0'] eqn:H0.
    cbn in Hfail. subst r0.
    unfold bind at 1, settle.
    rewrite (toolOutput_failure toolCall t0 e w0 w0' w H0).
    destruct (map_async_silent post w) as (ps & w1 & Hm).
    exists (Throw e :: ps), w1. unfold bind, ret. now rewrite Hm.
  - cbn [forallb] in Hpre. apply andb_true_iff in Hpre as [Hx Hpre].
    destruct (toolOutput_dispatchable x w Hx) as (o & wx & Ho).
    destruct (IH Hpre wx) as (ps & w1 & Hm & Hp).
    exists (Ok o :: ps), w1. unfold bind at 1, settle. rewrite Ho.
    unfold bind, ret. rewrite Hm. split; [reflexivity|]. cbn. now rewrite Hp.
Qed.

(** X10. When several calls of a payload cannot be answered, the error
    that is logged is the one of the first such call in the order of the
    calls, whatever the calls after it are; nothing else is logged or
    yielded. *)
Theorem first_failing_call_is_reported (openai : OpenAI)
    (run runId threadId : value) (pre : list value) (toolCall : value)
    (post : list value) (e : error) (w w0 : world) :
  tool_calls_of run = Ok (VArray (pre ++ toolCall :: post)) ->
  forallb dispatchable pre = true ->
  outcome_of (toolOutput toolCall w0) = Throw e ->
  trace_of (handleRequiresAction openai run runId threadId w) =
    [Log "Handle Function Calling" None;
     LogError "Error processing required action:" e].
Proof.
  intros Hc Hpre Hfail. rewrite handleRequiresAction_run.
  rewrite (awaitToolOutputs_run run _ w Hc).
  destruct (map_async_first_failure pre toolCall post e w w0 Hpre Hfail)
    as (ps & w1 & -> & ->).
  reflexivity.
Qed.

(** *** Rounds of tool calls on the outer stream *)

Lemma is_text_delta_event (chunk : value) :
  nullish chunk = false ->
  exists event data,
    get chunk "event" = Ok event /\ get chunk "data" = Ok data /\
    is_text_delta chunk = is_string event "thread.message.delta" /\
    is_requires_action chunk = is_string event "thread.run.requires_action".
Proof.
  intros Hn. destruct (get_data_ok chunk Hn) as (event & data & He & Hd).
  exists event, data. unfold is_text_delta, is_requires_action.
  now rewrite He.
Qed.

Lemma calls_fragments (msg : string) (frags : list string) :
  calls
    (flat_map (fun f =>
       [Yield (VString f); Log msg (Some (VObject [("value", VString f)]))])
       frags) = [].
Proof.
  unfold calls. induction frags as [|f frags IH]; cbn; [reflexivity|exact IH].
Qed.

(** What one readable event does: it returns, and sends one submission
    when it is a requires-action event, none otherwise. *)
Lemma onChunk_readable (openai : OpenAI) (chunk : value) (w : world) :
  readable_event chunk = true ->
  outcome_of (onChunk openai chunk w) = Ok tt /\
  List.length (calls (trace_of (onChunk openai chunk w))) =
    if is_requires_action chunk then 1 else 0.
Proof.
  unfold readable_event. intros [Hn Hr]%andb_true_iff.
  apply negb_true_iff in Hn.
  destruct (is_text_delta_event chunk Hn) as (event & data & He & Hd & Hdelta & Hact).
  destruct (is_text_delta chunk) eqn:Hk.
  - destruct (event_text chunk) as [s|] eqn:Hs; [|discriminate].
    destruct (onChunk_event_text openai chunk s w Hs) as (frags & -> & _).
    unfold outcome_of, trace_of. cbn [fst snd]. rewrite calls_fragments.
    rewrite Hact. symmetry in Hdelta.
    now rewrite (is_string_neq _ _ "thread.run.requires_action" Hdelta).
  - destruct (is_requires_action chunk) eqn:Ha.
    + unfold answerable_event in Hr. rewrite Hd in Hr.
      apply andb_true_iff in Hr as [Hdn Hc]. apply negb_true_iff in Hdn.
      destruct (tool_calls_of data) as [[| | | | |toolCalls|]|] eqn:Htc;
        try discriminate.
      destruct (get_ok data "id" Hdn) as [runId Hid].
      destruct (get_ok data "thread_id" Hdn) as [threadId Hth].
      assert (Hev : event_of_kind "thread.run.requires_action" chunk data).
      { exists event. now rewrite <- Hact. }
      rewrite (onChunk_requires_action openai chunk data runId threadId w Hev Hid Hth).
      split; [apply handleRequiresAction_returns|].
      rewrite handleRequiresAction_calls.
      destruct (awaitToolOutputs_dispatchable data toolCalls w Htc Hc)
        as (outs & w1 & ->).
      reflexivity.
    + assert (Hh : is_handled chunk = false)
        by (unfold is_handled; now rewrite Hk, Ha).
      now rewrite (onChunk_other openai chunk w Hn Hh).
Qed.

(** X11. Unlike the resumed stream, the outer stream is served at every
    round: when all its events are readable, [processQuery]'s loop returns
    normally and sends exactly one submission for each requires-action
    event, however many there are. *)
Theorem every_requires_action_is_served (openai : OpenAI) (chunks : list value)
    (w : world) :
  forallb readable_event chunks = true ->
  outcome_of (for_await (stream_of_list chunks) (onChunk openai) w) = Ok tt /\
  List.length (calls (trace_of (for_await (stream_of_list chunks) (onChunk openai) w))) =
    List.length (filter is_requires_action chunks).
Proof.
  unfold stream_of_list. revert w.
  induction chunks as [|chunk chunks IH]; intros w;
    cbn [forallb stream_app for_await filter]; [now split|].
  intros [Hc Hrest]%andb_true_iff.
  destruct (onChunk_readable openai chunk w Hc) as [Ho Hl].
  unfold bind. destruct (onChunk openai chunk w) as [[t1 r1] w1].
  unfold outcome_of, trace_of in Ho, Hl. cbn [fst snd] in Ho, Hl. subst r1.
  destruct (IH w1 Hrest) as [Ho2 Hl2].
  destruct (for_await (stream_app chunks SEnd) (onChunk openai) w1)
    as [[t2 r2] w2].
  unfold outcome_of, trace_of in *. cbn [fst snd] in *.
  split; [exact Ho2|].
  rewrite calls_app, length_app, Hl, Hl2.
  now destruct (is_requires_action chunk).
Qed.

(** *** The requests that open a run *)


(** *** The endpoint *)

(** X13. For a posted query whose run delivers text deltas only, the
    response has the two fixed headers, and reading its body logs the
    request, runs [processQuery] on the posted text and sends fragments
    whose concatenation is the concatenation of the text values. *)
Theorem respond_streams_reply (request : HttpRequest world) (query : string)
    (w w0 w1 : world) (t0 : trace) (openai : OpenAI)
    (chunks : list value) (texts : list string) :
  text request w = (Ok query, w0) ->
  openRun query w0 = (t0, Ok (openai, stream_of_list chunks), w1) ->
  map event_text chunks = map Some texts ->
  exists frags : list string,
    respond request w =
      (Log (request_line request) None :: trace_of (processQuery query w0),
       Ok [("Content-Type", "text/plain"); ("Transfer-Encoding", "chunked")], w1) /\
    yields (trace_of (respond request w)) = map VString frags /\
    String.concat EmptyString frags = String.concat EmptyString texts.
Proof.
  intros Htext Hopen Htexts.
  destruct (for_await_text_deltas openai chunks texts w1 Htexts)
    as (frags & t & Hloop & Hy & Hc).
  assert (Hq : processQuery query w0 =
               (t0 ++ Log "Step 5: Read streamed response" None
                  :: t ++ [Log "Done!" None], Ok tt, w1)).
  { now rewrite processQuery_run, Hopen, Hloop. }
  assert (Hr : respond request w =
      (Log (request_line request) None :: trace_of (processQuery query w0),
       Ok [("Content-Type", "text/plain"); ("Transfer-Encoding", "chunked")], w1)).
  { unfold respond, handler, context_log, await_text.
    rewrite bind_assoc, bind_emit, bind_assoc.
    unfold bind at 1. rewrite Htext. rewrite bind_ret.
    unfold bind, ret. cbn [body headers]. rewrite Hq.
    unfold trace_of. cbn [fst app]. now rewrite !app_nil_r. }
  exists frags. split; [exact Hr|]. split; [|exact Hc].
  rewrite Hr, Hq. unfold trace_of. cbn [fst].
  change (yields (?a :: ?l)) with (yielded_of a ++ yields l).
  cbn [yielded_of app]. rewrite yields_app, (openRun_yields _ _ _ _ _ Hopen).
  cbn [app]. change (yields (?a :: ?l)) with (yielded_of a ++ yields l).
  cbn [yielded_of app]. rewrite yields_app, Hy. cbn. now rewrite app_nil_r.
Qed.

End Coverage.

(** ** The further properties on the scenarios *)

Lemma processQuery_upstream_failure_witness :
  outcome_of (@processQuery Scenario.broken_host "What is AAPL trading at?" []) =
    Throw (HostError (VString "connection reset")) /\
  yields (trace_of (@processQuery Scenario.broken_host "What is AAPL trading at?" [])) =
    [VString "Hel"; VString "lo"] /\
  logged_errors
    (trace_of (@processQuery Scenario.broken_host "What is AAPL trading at?" [])) = [].
Proof.
  destruct (@processQuery_upstream_failure Scenario.broken_host
              "What is AAPL trading at?" [] [] []
              (trace_of (@openRun Scenario.broken_host "What is AAPL trading at?" []))
              (trace_of (@for_await Scenario.broken_host
                           (stream_of_list [Example.text_delta "Hel"; Example.text_delta "lo"])
                           (@onChunk Scenario.broken_host (@AzureOpenAI Scenario.broken_host))
                           []))
              (@AzureOpenAI Scenario.broken_host)
              [Example.text_delta "Hel"; Example.text_delta "lo"]
              (HostError (VString "connection reset")) eq_refl eq_refl) as [H1 H2].
  rewrite H2. rewrite H1. repeat split.
Defined.

Lemma assistant_rejection_stops_run_witness :
  @processQuery Scenario.rejecting_host "What is AAPL trading at?" [] =
    ([Log "Step 0: Connect and acquire an OpenAI instance" None;
      Log "Using Azure OpenAI (w/ Microsoft Entra ID) ..." None;
      Log "Step 1: Retrieve or Create an Assistant" None;
      Call (AssistantsRetrieve (VString "asst_9"))],
     Throw (HostError (VString "401")), []).
Proof.
  exact (@assistant_rejection_stops_run Scenario.rejecting_host
           "What is AAPL trading at?" [] [] (HostError (VString "401")) eq_refl).
Defined.

Lemma outer_loop_ignores_other_events_witness :
  stream_filter is_handled (stream_of_list Scenario.two_rounds) =
    stream_of_list
      [ Example.text_delta "A";
        Example.requires_action [Example.price_call];
        Example.requires_action [Example.weather_call; Example.price_call];
        Example.text_delta "Z" ] /\
  @for_await Scenario.two_rounds_host (stream_of_list Scenario.two_rounds)
    (@onChunk Scenario.two_rounds_host (@AzureOpenAI Scenario.two_rounds_host))
    [Example.half; Scenario.quarter] =
  @for_await Scenario.two_rounds_host
    (stream_filter is_handled (stream_of_list Scenario.two_rounds))
    (@onChunk Scenario.two_rounds_host (@AzureOpenAI Scenario.two_rounds_host))
    [Example.half; Scenario.quarter].
Proof.
  split; [reflexivity|].
  apply (@outer_loop_ignores_other_events Scenario.two_rounds_host). reflexivity.
Defined.

Lemma delta_without_content_raises_witness :
  @for_await Scenario.broken_host
    (SChunk Scenario.bare_delta (SChunk (Example.text_delta "lost") SEnd))
    (@onChunk Scenario.broken_host (@AzureOpenAI Scenario.broken_host)) [] =
  ([], Throw TypeError, []).
Proof.
  apply (@delta_without_content_raises Scenario.broken_host
           (@AzureOpenAI Scenario.broken_host) Scenario.bare_delta
           (VObject [("role", VString "assistant")]) VUndefined);
    try reflexivity.
  eexists. split; [exists (VString "thread.message.delta"); repeat split|].
  reflexivity.
Defined.

Lemma resumed_stream_failure_truncates_witness :
  let body :=
    VObject [("tool_outputs",
               VArray [VObject [("tool_call_id", VString "call_1");
                                ("output", VString "500")]])] in
  @submitToolOutputs Scenario.faulty_resumed_host
    (@AzureOpenAI Scenario.faulty_resumed_host)
    [VObject [("tool_call_id", VString "call_1"); ("output", VString "500")]]
    (VString "run_1") (VString "thread_1") [] =
  ([Log "Call Tool output and stream the response" None;
    Call (SubmitToolOutputsStream (VString "thread_1") (VString "run_1") body);
    Yield (VString "The price");
    Log "Processed thread.message.delta (tool output)"
      (Some (VObject [("value", VString "The price")]));
    LogError "Error submitting tool outputs:" TypeError],
   Ok tt, []).
Proof.
  exact (@resumed_stream_failure_truncates Scenario.faulty_resumed_host
           (@AzureOpenAI Scenario.faulty_resumed_host)
           [VObject [("tool_call_id", VString "call_1"); ("output", VString "500")]]
           (VString "run_1") (VString "thread_1")
           [Example.text_delta "The price"] Scenario.bare_delta
           (SChunk (Example.text_delta " is 500") SEnd) TypeError
           [Yield (VString "The price");
            Log "Processed thread.message.delta (tool output)"
              (Some (VObject [("value", VString "The price")]))]
           [] [] [] [] [] eq_refl eq_refl eq_refl).
Defined.

Lemma requires_action_without_payload_witness :
  @onChunk Scenario.broken_host (@AzureOpenAI Scenario.broken_host)
    Scenario.action_without_data [] = ([], Throw TypeError, []) /\
  @onChunk Scenario.broken_host (@AzureOpenAI Scenario.broken_host)
    (VObject [("event", VString "thread.run.requires_action");
              ("data", Scenario.run_without_action)]) [] =
    ([Log "Handle Function Calling" None;
      LogError "Error processing required action:" TypeError], Ok tt, []).
Proof.
  split.
  - apply (@requires_action_without_payload Scenario.broken_host
             (@AzureOpenAI Scenario.broken_host) Scenario.action_without_data
             VUndefined TypeError []); [|reflexivity].
    exists (VString "thread.run.requires_action"). repeat split.
  - apply (@requires_action_without_payload Scenario.broken_host
             (@AzureOpenAI Scenario.broken_host)
             (VObject [("event", VString "thread.run.requires_action");
                       ("data", Scenario.run_without_action)])
             Scenario.run_without_action TypeError []); [|reflexivity].
    exists (VString "thread.run.requires_action"). repeat split.
Defined.

Lemma tool_outputs_use_successive_draws_witness :
  @awaitToolOutputs Example.price_host
    (Example.run_payload
       [Example.price_call; Example.weather_call;
        Example.function_call "call_3" "getStockPrice" (Example.symbol_arguments "MSFT")])
    [Example.half; Scenario.quarter; Example.half] =
  ([],
   Ok [VObject [("tool_call_id", VString "call_1"); ("output", VString "500")];
       Example.weather_call;
       VObject [("tool_call_id", VString "call_3"); ("output", VString "250")]],
   [Example.half]).
Proof.
  exact (@tool_outputs_use_successive_draws Example.price_host
           (Example.run_payload
              [Example.price_call; Example.weather_call;
               Example.function_call "call_3" "getStockPrice"
                 (Example.symbol_arguments "MSFT")])
           [Example.price_call; Example.weather_call;
            Example.function_call "call_3" "getStockPrice"
              (Example.symbol_arguments "MSFT")]
           [Example.half; Scenario.quarter; Example.half] eq_refl eq_refl).
Defined.

Lemma first_failing_call_is_reported_witness :
  trace_of (@handleRequiresAction Example.price_host (@AzureOpenAI Example.price_host)
              (Example.run_payload
                 [Example.price_call; Example.malformed_call;
                  Example.function_call "call_3" "getStockPrice" "null"])
              (VString "run_1") (VString "thread_1") [Example.half]) =
  [Log "Handle Function Calling" None;
   LogError "Error processing required action:" SyntaxError].
Proof.
  exact (@first_failing_call_is_reported Example.price_host
           (@AzureOpenAI Example.price_host)
           (Example.run_payload
              [Example.price_call; Example.malformed_call;
               Example.function_call "call_3" "getStockPrice" "null"])
           (VString "run_1") (VString "thread_1")
           [Example.price_call] Example.malformed_call
           [Example.function_call "call_3" "getStockPrice" "null"]
           SyntaxError [Example.half] [] eq_refl eq_refl eq_refl).
Defined.

Lemma every_requires_action_is_served_witness :
  outcome_of (@for_await Scenario.two_rounds_host (stream_of_list Scenario.two_rounds)
                (@onChunk Scenario.two_rounds_host
                   (@AzureOpenAI Scenario.two_rounds_host))
                [Example.half; Scenario.quarter]) = Ok tt /\
  List.length
    (calls (trace_of (@for_await Scenario.two_rounds_host
                        (stream_of_list Scenario.two_rounds)
                        (@onChunk Scenario.two_rounds_host
                           (@AzureOpenAI Scenario.two_rounds_host))
                        [Example.half; Scenario.quarter]))) = 2.
Proof.
  exact (@every_requires_action_is_served Scenario.two_rounds_host
           (@AzureOpenAI Scenario.two_rounds_host) Scenario.two_rounds
           [Example.half; Scenario.quarter] eq_refl).
Defined.


Lemma respond_streams_reply_witness :
  exists frags : list string,
    @respond Example.text_host (Scenario.post "What is AAPL trading at?") [] =
      (Log (@request_line Example.text_host (Scenario.post "What is AAPL trading at?")) None
         :: trace_of (@processQuery Example.text_host "What is AAPL trading at?" []),
       Ok [("Content-Type", "text/plain"); ("Transfer-Encoding", "chunked")], []) /\
    yields (trace_of (@respond Example.text_host
                        (Scenario.post "What is AAPL trading at?") [])) =
      map VString frags /\
    String.concat EmptyString frags = "Hello".
Proof.
  exact (@respond_streams_reply Example.text_host
           (Scenario.post "What is AAPL trading at?") "What is AAPL trading at?"
           [] [] []
           (trace_of (@openRun Example.text_host "What is AAPL trading at?" []))
           (@AzureOpenAI Example.text_host) Example.text_chunks
           ["Hel"; EmptyString; "lo"] eq_refl eq_refl eq_refl).
Defined.
